(** * Sil-Q portability headers: h-config.h, h-define.h, h-system.h

    The three headers are programs of the C preprocessor.  Each one is
    embedded as a function on the preprocessor's state, directive by
    directive, in the order of the source.  The arithmetic and character
    macros of h-define.h are embedded as functions on integers, each one
    following the macro's replacement text. *)

From stdpp Require Import gmap strings list fin_maps.
From Stdlib Require Import ZArith Lia Ascii String.

Local Open Scope Z_scope.

(** ** The preprocessor *)

(** The replacement list of a macro. *)
Inductive repl :=
  | Empty                     (* #define X           *)
  | IntLit (z : Z)            (* #define X 2         *)
  | StrLit (s : string)       (* a string literal, given by the string it denotes *)
  | Tokens (text : string).   (* any other replacement text *)

Inductive macro :=
  | Obj (r : repl)                            (* #define X r        *)
  | Fun (params : list string) (r : repl).    (* #define X(p, ...) r *)

(** What a header does, in order. *)
Inductive event :=
  | Ev_define (name : string) (m : macro)
  | Ev_undef (name : string)
  | Ev_include (header : string).

(** The macro table and the directives carried out so far. *)
Record cpp := Cpp { macros : gmap string macro; trace : list event }.

(** A build starts from the macros the compiler, the command line and the
    headers read before have defined. *)
Definition start (predefined : gmap string macro) : cpp :=
  {| macros := predefined; trace := [] |}.

Definition directive := cpp -> cpp.

Definition defined (name : string) (s : cpp) : bool :=
  bool_decide (is_Some (macros s !! name)).

Definition value (name : string) (s : cpp) : option macro := macros s !! name.

(** #define: the new replacement list takes the place of an old one. *)
Definition define (name : string) (m : macro) : directive := fun s =>
  {| macros := <[name := m]> (macros s);
     trace := trace s ++ [Ev_define name m] |}.

Definition undef (name : string) : directive := fun s =>
  {| macros := delete name (macros s);
     trace := trace s ++ [Ev_undef name] |}.

(** #include <header>: the header is to be read here.  What a system header
    declares is the platform's business and is not part of this model: the
    macros a platform has defined come in through the initial table, and the
    names these three headers test and define are not reserved to the
    platform. *)
Definition include (header : string) : directive := fun s =>
  {| macros := macros s; trace := trace s ++ [Ev_include header] |}.

Definition seq (d1 d2 : directive) : directive := fun s => d2 (d1 s).
Definition skip : directive := fun s => s.

(** #if c ... #else ... #endif: the condition is read once, where the group
    opens. *)
Definition if_else (c : cpp -> bool) (d1 d2 : directive) : directive :=
  fun s => if c s then d1 s else d2 s.

Definition not_defined (name : string) (s : cpp) : bool := negb (defined name s).

(** #if c ... #endif, #ifdef X ... #endif, #ifndef X ... #endif and
    #ifdef X ... #else ... #endif. *)
Definition when (c : cpp -> bool) (d : directive) : directive := if_else c d skip.
Definition ifdef (name : string) (d : directive) : directive :=
  if_else (defined name) d skip.
Definition ifndef (name : string) (d : directive) : directive :=
  if_else (defined name) skip d.
Definition ifdef_else (name : string) (d1 d2 : directive) : directive :=
  if_else (defined name) d1 d2.
Definition ifndef_else (name : string) (d1 d2 : directive) : directive :=
  if_else (defined name) d2 d1.

Declare Scope cpp_scope.
Delimit Scope cpp_scope with cpp.
Bind Scope cpp_scope with directive.
Notation "d1 >>> d2" := (seq d1 d2)
  (at level 60, right associativity) : cpp_scope.

(** ** h-config.h *)

Module HConfig.

(** Extract the WINDOWS flag from the compiler (lines 19-23). *)
Definition platform_classifier : directive :=
  when (fun s => defined "_WIN32" s || defined "WIN32" s)
    (ifndef "WINDOWS"
       (define "WINDOWS" (Obj Empty))).

(** SET_UID (lines 36-38). *)
Definition multi_user : directive :=
  when (not_defined "WINDOWS")
    (define "SET_UID" (Obj Empty)).

(** PATH_SEP: the default (lines 45-46) and the override (lines 47-50). *)
Definition path_sep_default : directive :=
  (undef "PATH_SEP" >>>
   define "PATH_SEP" (Obj (StrLit "/")))%cpp.

Definition path_sep_windows : directive :=
  when (defined "WINDOWS")
    (undef "PATH_SEP" >>>
     define "PATH_SEP" (Obj (StrLit "\")))%cpp.

(** FILE_TYPE (lines 53-58). *)
Definition file_type : directive :=
  ifndef "FILE_TYPE_TEXT"
    (define "FILE_TYPE_TEXT" (Obj Empty) >>>
     define "FILE_TYPE_DATA" (Obj Empty) >>>
     define "FILE_TYPE_SAVE" (Obj Empty) >>>
     define "FILE_TYPE" (Fun ["X"] Empty))%cpp.

(** HAVE_USLEEP (lines 67-69). *)
Definition have_usleep : directive :=
  when (fun s => defined "SET_UID" s && not_defined "HAVE_CONFIG_H" s)
    (define "HAVE_USLEEP" (Obj Empty)).

(** The body of the header, and the header inside its include guard
    (lines 3-4 and 71). *)
Definition h_config_body : directive :=
  (platform_classifier >>>
   multi_user >>>
   path_sep_default >>>
   path_sep_windows >>>
   file_type >>>
   have_usleep)%cpp.

Definition h_config : directive :=
  ifndef "INCLUDED_H_CONFIG_H"
    (define "INCLUDED_H_CONFIG_H" (Obj Empty) >>>
     h_config_body)%cpp.

End HConfig.

(** ** h-define.h: the definitions *)

Module HDefine.

(** #ifndef X / #define X v / #endif (lines 13-15, 20-28, 33-41). *)
Definition define_if_absent (name : string) (m : macro) : directive :=
  ifndef name (define name m).

(** #undef X / #define X ... (lines 47-51, 58-84). *)
Definition redefine (name : string) (m : macro) : directive :=
  (undef name >>> define name m)%cpp.

Definition null_constant : directive :=
  define_if_absent "NULL" (Obj (Tokens "((void*)0)")).

(** Hack -- force definitions -- see fd_seek() (lines 20-28). *)
Definition seek_constants : directive :=
  (define_if_absent "SEEK_SET" (Obj (IntLit 0)) >>>
   define_if_absent "SEEK_CUR" (Obj (IntLit 1)) >>>
   define_if_absent "SEEK_END" (Obj (IntLit 2)))%cpp.

(** Hack -- force definitions -- see fd_lock() (lines 33-41). *)
Definition lock_constants : directive :=
  (define_if_absent "F_UNLCK" (Obj (IntLit 0)) >>>
   define_if_absent "F_RDLCK" (Obj (IntLit 1)) >>>
   define_if_absent "F_WRLCK" (Obj (IntLit 2)))%cpp.

Definition fallback_constants : directive :=
  (seek_constants >>> lock_constants)%cpp.

(** TRUE and FALSE (lines 47-51). *)
Definition boolean_constants : directive :=
  (redefine "TRUE" (Obj (IntLit 1)) >>>
   redefine "FALSE" (Obj (IntLit 0)))%cpp.

(** The non-typed macros (lines 58-84). *)
Definition numeric_macros : directive :=
  (redefine "MIN" (Fun ["a"; "b"] (Tokens "(((a) > (b)) ? (b) : (a))")) >>>
   redefine "MAX" (Fun ["a"; "b"] (Tokens "(((a) < (b)) ? (b) : (a))")) >>>
   redefine "ABS" (Fun ["a"] (Tokens "(((a) < 0) ? (-(a)) : (a))")) >>>
   redefine "SGN" (Fun ["a"] (Tokens "(((a) < 0) ? (-1) : ((a) != 0))")) >>>
   redefine "ORDERED" (Fun ["a"; "b"; "c"]
     (Tokens "((((a) <= (b)) && ((b) <= (c))) || (((c) <= (b)) && ((b) <= (a))))")))%cpp.

(** Indexes, digits and control characters (lines 94-100). *)
Definition character_macros : directive :=
  (define "A2I" (Fun ["X"] (Tokens "((X) - 'a')")) >>>
   define "I2A" (Fun ["X"] (Tokens "((X) + 'a')")) >>>
   define "D2I" (Fun ["X"] (Tokens "((X) - '0')")) >>>
   define "I2D" (Fun ["X"] (Tokens "((X) + '0')")) >>>
   define "KTRL" (Fun ["X"] (Tokens "((X)&0x1F)")) >>>
   define "UN_KTRL" (Fun ["X"] (Tokens "((X) + 64)")) >>>
   define "ESCAPE" (Obj (Tokens "'\033'")))%cpp.

(** FALLTHROUGH (lines 111-115). *)
Definition fallthrough : directive :=
  ifdef_else "__GNUC__"
    (define "FALLTHROUGH" (Obj (Tokens "__attribute__((fallthrough))")))
    (define "FALLTHROUGH" (Obj Empty)).

Definition h_define_body : directive :=
  (null_constant >>>
   fallback_constants >>>
   boolean_constants >>>
   numeric_macros >>>
   character_macros >>>
   fallthrough)%cpp.

Definition h_define : directive :=
  ifndef "INCLUDED_H_DEFINE_H"
    (define "INCLUDED_H_DEFINE_H" (Obj Empty) >>>
     h_define_body)%cpp.

(** The six fallback constants with the values the header gives them. *)
Definition fallback_table : list (string * Z) :=
  [("SEEK_SET", 0); ("SEEK_CUR", 1); ("SEEK_END", 2);
   ("F_UNLCK", 0); ("F_RDLCK", 1); ("F_WRLCK", 2)].

End HDefine.

(** ** h-system.h *)

Module HSystem.

(** Lines 21-31. *)
Definition multi_user_types : directive :=
  ifdef "SET_UID"
    (include "sys/types.h" >>>
     when (defined "__linux__") (include "sys/time.h") >>>
     include "sys/timeb.h")%cpp.

(** Lines 44-55: the toolchain has the POSIX headers. *)
Definition posix_facilities : directive :=
  (include "sys/param.h" >>>
   include "sys/file.h" >>>
   ifdef "__linux__" (include "sys/file.h") >>>
   include "pwd.h" >>>
   include "unistd.h")%cpp.

(** Lines 56-64: _MSC_VER. *)
Definition demote : directive :=
  (ifndef "WINDOWS" (define "WINDOWS" (Obj Empty)) >>>
   undef "SET_UID")%cpp.

(** Lines 42-68. *)
Definition multi_user_facilities : directive :=
  ifdef "SET_UID"
    (ifndef_else "_MSC_VER" posix_facilities demote >>>
     include "sys/stat.h")%cpp.

Definition h_system_body : directive :=
  (include "stdio.h" >>>
   include "ctype.h" >>>
   include "errno.h" >>>
   include "stdlib.h" >>>
   multi_user_types >>>
   include "time.h" >>>
   when (defined "WINDOWS") (include "io.h") >>>
   include "memory.h" >>>
   include "fcntl.h" >>>
   multi_user_facilities >>>
   include "string.h" >>>
   include "stdarg.h")%cpp.

Definition h_system : directive :=
  ifndef "INCLUDED_H_SYSTEM_H"
    (define "INCLUDED_H_SYSTEM_H" (Obj Empty) >>>
     h_system_body)%cpp.

End HSystem.

(** ** h-define.h: what the macros compute *)

(** The operators of C the macros use.  The macros are not typed; they are
    read here at the integers, of unbounded size, so that a result is the one
    of C at any integer type in which it can be represented.  A comparison or
    a logical operator yields 1 or 0, and a condition holds when it is not
    0. *)
Module C.

Definition of_bool (b : bool) : Z := if b then 1 else 0.
Definition truth (x : Z) : bool := negb (x =? 0).

Definition lt (x y : Z) : Z := of_bool (x <? y).
Definition gt (x y : Z) : Z := of_bool (x >? y).
Definition le (x y : Z) : Z := of_bool (x <=? y).
Definition ne (x y : Z) : Z := of_bool (negb (x =? y)).
Definition and (x y : Z) : Z := of_bool (truth x && truth y).
Definition or (x y : Z) : Z := of_bool (truth x || truth y).
Definition cond (c x y : Z) : Z := if truth c then x else y.

(** A character constant is an int: the code of the character. *)
Definition chr (c : ascii) : Z := Z.of_N (N_of_ascii c).

End C.

Module Macros.

Definition TRUE : Z := 1.
Definition FALSE : Z := 0.

Definition MIN (a b : Z) : Z := C.cond (C.gt a b) b a.
Definition MAX (a b : Z) : Z := C.cond (C.lt a b) b a.
Definition ABS (a : Z) : Z := C.cond (C.lt a 0) (- a) a.
Definition SGN (a : Z) : Z := C.cond (C.lt a 0) (-1) (C.ne a 0).
Definition ORDERED (a b c : Z) : Z :=
  C.or (C.and (C.le a b) (C.le b c)) (C.and (C.le c b) (C.le b a)).

Definition A2I (X : Z) : Z := X - C.chr "a".
Definition I2A (X : Z) : Z := X + C.chr "a".
Definition D2I (X : Z) : Z := X - C.chr "0".
Definition I2D (X : Z) : Z := X + C.chr "0".
Definition KTRL (X : Z) : Z := Z.land X 0x1F.
Definition UN_KTRL (X : Z) : Z := X + 64.
Definition ESCAPE : Z := C.chr "027".

End Macros.

(** ** Reading a state *)

(** The events of a trace that define or undefine a given macro. *)
Definition on_macro (n : string) (e : event) : bool :=
  match e with
  | Ev_define k _ | Ev_undef k => String.eqb k n
  | Ev_include _ => false
  end.

(** What has been done to macro [n] so far, and the headers asked for. *)
Definition events (n : string) (s : cpp) : list event :=
  List.filter (on_macro n) (trace s).

Definition header_of (e : event) : option string :=
  match e with Ev_include h => Some h | _ => None end.

Definition headers (s : cpp) : list string := omap header_of (trace s).

Definition mem (n : string) (L : list string) : bool :=
  existsb (String.eqb n) L.

(** A directive that defines and undefines no macro outside [L]. *)
Definition confined (L : list string) (d : directive) : Prop :=
  forall s k, mem k L = false ->
    value k (d s) = value k s /\ events k (d s) = events k s.

(** The headers a directive asks for, run on [s]. *)
Definition requested (d : directive) (s : cpp) : list string :=
  drop (List.length (headers s)) (headers (d s)).

(** A directive that asks for no header. *)
Definition silent (d : directive) : Prop :=
  forall s, headers (d s) = headers s.

(** MultiUserFlag is the negation of WindowsFamily. *)
Definition consistent (s : cpp) : Prop :=
  defined "SET_UID" s = negb (defined "WINDOWS" s).

(** ** The names each header writes *)

Definition h_config_names : list string :=
  ["INCLUDED_H_CONFIG_H"; "WINDOWS"; "SET_UID"; "PATH_SEP";
   "FILE_TYPE_TEXT"; "FILE_TYPE_DATA"; "FILE_TYPE_SAVE"; "FILE_TYPE";
   "HAVE_USLEEP"].

Definition h_define_names : list string :=
  ["INCLUDED_H_DEFINE_H"; "NULL";
   "SEEK_SET"; "SEEK_CUR"; "SEEK_END"; "F_UNLCK"; "F_RDLCK"; "F_WRLCK";
   "TRUE"; "FALSE"; "MIN"; "MAX"; "ABS"; "SGN"; "ORDERED";
   "A2I"; "I2A"; "D2I"; "I2D"; "KTRL"; "UN_KTRL"; "ESCAPE"; "FALLTHROUGH"].

Definition h_system_names : list string :=
  ["INCLUDED_H_SYSTEM_H"; "WINDOWS"; "SET_UID"].

(** The four macros of the FILE_TYPE group of h-config.h (lines 54-57). *)
Definition file_type_table : list (string * macro) :=
  [("FILE_TYPE_TEXT", Obj Empty); ("FILE_TYPE_DATA", Obj Empty);
   ("FILE_TYPE_SAVE", Obj Empty); ("FILE_TYPE", Fun ["X"] Empty)].

(** The macros h-define.h undefines before it defines them (lines 47-84). *)
Definition forced_table : list (string * macro) :=
  [("TRUE", Obj (IntLit 1)); ("FALSE", Obj (IntLit 0));
   ("MIN", Fun ["a"; "b"] (Tokens "(((a) > (b)) ? (b) : (a))"));
   ("MAX", Fun ["a"; "b"] (Tokens "(((a) < (b)) ? (b) : (a))"));
   ("ABS", Fun ["a"] (Tokens "(((a) < 0) ? (-(a)) : (a))"));
   ("SGN", Fun ["a"] (Tokens "(((a) < 0) ? (-1) : ((a) != 0))"));
   ("ORDERED", Fun ["a"; "b"; "c"]
      (Tokens "((((a) <= (b)) && ((b) <= (c))) || (((c) <= (b)) && ((b) <= (a))))"))].

(** The headers every pass through h-system.h asks for, and the ones it asks
    for on a multi-user system with the POSIX headers (lines 45-54). *)
Definition common_headers : list string :=
  ["stdio.h"; "ctype.h"; "errno.h"; "stdlib.h"; "time.h"; "memory.h";
   "fcntl.h"; "string.h"; "stdarg.h"].

Definition posix_headers : list string :=
  ["sys/param.h"; "sys/file.h"; "pwd.h"; "unistd.h"].

(** ** Some builds *)

(** A Unix build under Linux, and a build for a Windows target. *)
Definition linux_build : gmap string macro :=
  {[ "__linux__" := Obj (IntLit 1); "__GNUC__" := Obj (IntLit 13) ]}.

Definition windows_build : gmap string macro :=
  {[ "_WIN32" := Obj (IntLit 1); "_MSC_VER" := Obj (IntLit 1900) ]}.

(** A command line that sets both flags, as in cc -DWINDOWS -DSET_UID. *)
Definition both_flags : gmap string macro :=
  {[ "WINDOWS" := Obj Empty; "SET_UID" := Obj Empty ]}.

(** A Windows target that comes with a PATH_SEP of its own. *)
Definition win32_build : gmap string macro :=
  {[ "WIN32" := Obj Empty; "PATH_SEP" := Obj (StrLit ":") ]}.

(** _MSC_VER with no Windows signal beside it. *)
Definition msc_build : gmap string macro :=
  {[ "_MSC_VER" := Obj (IntLit 1900) ]}.

(** A platform whose headers number the lock modes in their own way. *)
Definition platform_locks : gmap string macro :=
  {[ "F_RDLCK" := Obj (IntLit 0); "F_WRLCK" := Obj (IntLit 1);
     "F_UNLCK" := Obj (IntLit 2) ]}.

Import HConfig HDefine HSystem.

(** ** Reading a state through a directive *)

Section Directives.

Implicit Types (s : cpp) (n k : string) (m : macro) (d : directive)
  (L : list string).

Lemma defined_value n s : defined n s = bool_decide (is_Some (value n s)).
Proof. reflexivity. Qed.

Lemma defined_true n s : defined n s = true <-> is_Some (value n s).
Proof. unfold defined, value. apply bool_decide_eq_true. Qed.

Lemma defined_false n s : defined n s = false <-> value n s = None.
Proof.
  unfold defined, value. rewrite bool_decide_eq_false.
  split; [apply eq_None_not_Some | intros ->; apply is_Some_None].
Qed.

Lemma value_define_eq n m s : value n (define n m s) = Some m.
Proof. apply lookup_insert_eq. Qed.

Lemma value_define_ne n k m s : n <> k -> value k (define n m s) = value k s.
Proof. apply lookup_insert_ne. Qed.

Lemma value_undef_eq n s : value n (undef n s) = None.
Proof. apply lookup_delete_eq. Qed.

Lemma value_undef_ne n k s : n <> k -> value k (undef n s) = value k s.
Proof. apply lookup_delete_ne. Qed.

Lemma value_include h k s : value k (include h s) = value k s.
Proof. reflexivity. Qed.

Lemma defined_include h k s : defined k (include h s) = defined k s.
Proof. reflexivity. Qed.

Lemma events_include h k s : events k (include h s) = events k s.
Proof.
  unfold events. cbn [include trace]. rewrite List.filter_app. cbn.
  apply app_nil_r.
Qed.

Lemma defined_define_eq n m s : defined n (define n m s) = true.
Proof. apply defined_true. rewrite value_define_eq. eauto. Qed.

Lemma defined_undef_eq n s : defined n (undef n s) = false.
Proof. apply defined_false, value_undef_eq. Qed.

Lemma events_define_eq n m s :
  events n (define n m s) = events n s ++ [Ev_define n m].
Proof.
  unfold events. cbn [define trace]. rewrite List.filter_app. cbn.
  by rewrite String.eqb_refl.
Qed.

Lemma events_undef_eq n s : events n (undef n s) = events n s ++ [Ev_undef n].
Proof.
  unfold events. cbn [undef trace]. rewrite List.filter_app. cbn.
  by rewrite String.eqb_refl.
Qed.

Lemma headers_define n m s : headers (define n m s) = headers s.
Proof.
  unfold headers. cbn [define trace]. rewrite omap_app. cbn.
  apply app_nil_r.
Qed.

Lemma headers_undef n s : headers (undef n s) = headers s.
Proof.
  unfold headers. cbn [undef trace]. rewrite omap_app. cbn.
  apply app_nil_r.
Qed.

Lemma headers_include h s : headers (include h s) = headers s ++ [h].
Proof. unfold headers. cbn [include trace]. by rewrite omap_app. Qed.

(** *** The frame of a directive *)

Lemma mem_ne n k L : mem n L = true -> mem k L = false -> n <> k.
Proof. intros Hn Hk ->. congruence. Qed.

Lemma confined_define n m L : mem n L = true -> confined L (define n m).
Proof.
  intros Hn s k Hk. pose proof (mem_ne _ _ _ Hn Hk) as Hne. split.
  - by apply value_define_ne.
  - unfold events. cbn [define trace]. rewrite List.filter_app. cbn.
    apply String.eqb_neq in Hne. rewrite Hne. apply app_nil_r.
Qed.

Lemma confined_undef n L : mem n L = true -> confined L (undef n).
Proof.
  intros Hn s k Hk. pose proof (mem_ne _ _ _ Hn Hk) as Hne. split.
  - by apply value_undef_ne.
  - unfold events. cbn [undef trace]. rewrite List.filter_app. cbn.
    apply String.eqb_neq in Hne. rewrite Hne. apply app_nil_r.
Qed.

Lemma confined_include h L : confined L (include h).
Proof.
  intros s k _. split; [reflexivity |].
  unfold events. cbn [include trace]. rewrite List.filter_app. cbn.
  apply app_nil_r.
Qed.

Lemma confined_skip L : confined L skip.
Proof. by intros s k _. Qed.

Lemma confined_seq d1 d2 L :
  confined L d1 -> confined L d2 -> confined L (seq d1 d2).
Proof.
  intros H1 H2 s k Hk. unfold seq.
  destruct (H1 s k Hk) as [E1 E2], (H2 (d1 s) k Hk) as [E3 E4].
  split; congruence.
Qed.

Lemma confined_if_else c d1 d2 L :
  confined L d1 -> confined L d2 -> confined L (if_else c d1 d2).
Proof.
  intros H1 H2 s k Hk. unfold if_else. destruct (c s); [by apply H1 | by apply H2].
Qed.

Lemma frame_value d L k s :
  confined L d -> mem k L = false -> value k (d s) = value k s.
Proof. intros H Hk. by apply H. Qed.

Lemma frame_defined d L k s :
  confined L d -> mem k L = false -> defined k (d s) = defined k s.
Proof. intros H Hk. by rewrite !defined_value, (frame_value _ _ _ _ H Hk). Qed.

Lemma frame_events d L k s :
  confined L d -> mem k L = false -> events k (d s) = events k s.
Proof. intros H Hk. by apply H. Qed.

End Directives.

Create HintDb cpp.
#[export] Hint Resolve confined_define confined_undef confined_include
  confined_skip confined_seq confined_if_else : cpp.
#[export] Hint Extern 1 (mem _ _ = true) => reflexivity : cpp.

Ltac cpp_unfold :=
  unfold when, ifdef, ifndef, ifdef_else, ifndef_else.

(** The frame of a group of directives, from the frames of its parts. *)
Ltac cpp_confined := cpp_unfold; eauto 20 with cpp.

Section Config.

Implicit Types (s : cpp).

(** *** The groups of h-config.h, one by one *)

Lemma platform_classifier_confined : confined ["WINDOWS"] platform_classifier.
Proof. unfold platform_classifier. cpp_confined. Qed.

Lemma multi_user_confined : confined ["SET_UID"] multi_user.
Proof. unfold multi_user. cpp_confined. Qed.

Lemma path_sep_default_confined : confined ["PATH_SEP"] path_sep_default.
Proof. unfold path_sep_default. cpp_confined. Qed.

Lemma path_sep_windows_confined : confined ["PATH_SEP"] path_sep_windows.
Proof. unfold path_sep_windows. cpp_confined. Qed.

Lemma file_type_confined :
  confined ["FILE_TYPE_TEXT"; "FILE_TYPE_DATA"; "FILE_TYPE_SAVE"; "FILE_TYPE"]
    file_type.
Proof. unfold file_type. cpp_confined. Qed.

Lemma have_usleep_confined : confined ["HAVE_USLEEP"] have_usleep.
Proof. unfold have_usleep. cpp_confined. Qed.

Lemma platform_classifier_windows s :
  defined "WINDOWS" (platform_classifier s)
  = defined "WINDOWS" s || defined "_WIN32" s || defined "WIN32" s.
Proof.
  unfold platform_classifier, when, ifndef, if_else, skip.
  destruct (defined "_WIN32" s), (defined "WIN32" s),
    (defined "WINDOWS" s) eqn:W; cbn [orb];
    rewrite ?defined_define_eq; congruence.
Qed.

Lemma multi_user_set_uid s :
  defined "SET_UID" (multi_user s)
  = negb (defined "WINDOWS" s) || defined "SET_UID" s.
Proof.
  unfold multi_user, when, if_else, skip, not_defined.
  destruct (defined "WINDOWS" s); cbn [negb orb];
    rewrite ?defined_define_eq; reflexivity.
Qed.

Lemma multi_user_events s :
  events "SET_UID" (multi_user s)
  = events "SET_UID" s
    ++ (if defined "WINDOWS" s then [] else [Ev_define "SET_UID" (Obj Empty)]).
Proof.
  unfold multi_user, when, if_else, skip, not_defined.
  destruct (defined "WINDOWS" s); cbn [negb];
    [by rewrite app_nil_r | apply events_define_eq].
Qed.

Lemma path_sep_default_value s :
  value "PATH_SEP" (path_sep_default s) = Some (Obj (StrLit "/")).
Proof. unfold path_sep_default, seq. apply value_define_eq. Qed.

Lemma path_sep_default_events s :
  events "PATH_SEP" (path_sep_default s)
  = events "PATH_SEP" s
    ++ [Ev_undef "PATH_SEP"; Ev_define "PATH_SEP" (Obj (StrLit "/"))].
Proof.
  unfold path_sep_default, seq.
  by rewrite events_define_eq, events_undef_eq, <- app_assoc.
Qed.

Lemma path_sep_windows_value s :
  value "PATH_SEP" (path_sep_windows s)
  = if defined "WINDOWS" s then Some (Obj (StrLit "\"))
    else value "PATH_SEP" s.
Proof.
  unfold path_sep_windows, when, if_else, skip, seq.
  destruct (defined "WINDOWS" s); [apply value_define_eq | reflexivity].
Qed.

Lemma path_sep_windows_events s :
  events "PATH_SEP" (path_sep_windows s)
  = events "PATH_SEP" s
    ++ (if defined "WINDOWS" s
        then [Ev_undef "PATH_SEP"; Ev_define "PATH_SEP" (Obj (StrLit "\"))]
        else []).
Proof.
  unfold path_sep_windows, when, if_else, skip, seq.
  destruct (defined "WINDOWS" s); [| by rewrite app_nil_r].
  by rewrite events_define_eq, events_undef_eq, <- app_assoc.
Qed.

Lemma have_usleep_defined s :
  defined "HAVE_USLEEP" (have_usleep s)
  = defined "SET_UID" s && negb (defined "HAVE_CONFIG_H" s)
    || defined "HAVE_USLEEP" s.
Proof.
  unfold have_usleep, when, if_else, skip, not_defined.
  destruct (defined "SET_UID" s && negb (defined "HAVE_CONFIG_H" s));
    cbn [orb]; rewrite ?defined_define_eq; reflexivity.
Qed.

Lemma have_usleep_events s :
  events "HAVE_USLEEP" (have_usleep s)
  = events "HAVE_USLEEP" s
    ++ (if defined "SET_UID" s && negb (defined "HAVE_CONFIG_H" s)
        then [Ev_define "HAVE_USLEEP" (Obj Empty)] else []).
Proof.
  unfold have_usleep, when, if_else, skip, not_defined.
  destruct (defined "SET_UID" s && negb (defined "HAVE_CONFIG_H" s));
    [apply events_define_eq | by rewrite app_nil_r].
Qed.

End Config.

(** Reading a macro through a group that leaves it alone. *)
Ltac frame_with H :=
  lazymatch type of H with
  | confined ?L ?d =>
      match goal with
      | |- context [defined ?k (d ?s)] =>
          rewrite (frame_defined d L k s H) by reflexivity
      | |- context [value ?k (d ?s)] =>
          rewrite (frame_value d L k s H) by reflexivity
      | |- context [events ?k (d ?s)] =>
          rewrite (frame_events d L k s H) by reflexivity
      end
  end.

Ltac frame_config :=
  repeat first
    [ frame_with have_usleep_confined | frame_with file_type_confined
    | frame_with path_sep_windows_confined | frame_with path_sep_default_confined
    | frame_with multi_user_confined | frame_with platform_classifier_confined ].

Section ConfigHeader.

Implicit Types (s : cpp).

(** *** The body of h-config.h *)

Lemma h_config_body_windows s :
  defined "WINDOWS" (h_config_body s)
  = defined "WINDOWS" s || defined "_WIN32" s || defined "WIN32" s.
Proof.
  unfold h_config_body, seq. frame_config. apply platform_classifier_windows.
Qed.

Lemma h_config_body_set_uid s :
  defined "SET_UID" (h_config_body s)
  = negb (defined "WINDOWS" (h_config_body s)) || defined "SET_UID" s.
Proof.
  rewrite h_config_body_windows. unfold h_config_body, seq. frame_config.
  rewrite multi_user_set_uid, platform_classifier_windows. by frame_config.
Qed.

Lemma h_config_body_set_uid_events s :
  events "SET_UID" (h_config_body s)
  = events "SET_UID" s
    ++ (if defined "WINDOWS" (h_config_body s) then []
        else [Ev_define "SET_UID" (Obj Empty)]).
Proof.
  rewrite h_config_body_windows. unfold h_config_body, seq. frame_config.
  rewrite multi_user_events, platform_classifier_windows. by frame_config.
Qed.

Lemma h_config_body_path_sep s :
  value "PATH_SEP" (h_config_body s)
  = Some (Obj (StrLit (if defined "WINDOWS" (h_config_body s)
                       then "\" else "/"))).
Proof.
  rewrite h_config_body_windows. unfold h_config_body, seq. frame_config.
  rewrite path_sep_windows_value, path_sep_default_value. frame_config.
  rewrite platform_classifier_windows.
  by destruct (defined "WINDOWS" s || defined "_WIN32" s || defined "WIN32" s).
Qed.

Lemma h_config_body_path_sep_events s :
  events "PATH_SEP" (h_config_body s)
  = events "PATH_SEP" s
    ++ [Ev_undef "PATH_SEP"; Ev_define "PATH_SEP" (Obj (StrLit "/"))]
    ++ (if defined "WINDOWS" (h_config_body s)
        then [Ev_undef "PATH_SEP"; Ev_define "PATH_SEP" (Obj (StrLit "\"))]
        else []).
Proof.
  rewrite h_config_body_windows. unfold h_config_body, seq. frame_config.
  rewrite path_sep_windows_events, path_sep_default_events. frame_config.
  rewrite platform_classifier_windows. by rewrite <- app_assoc.
Qed.

Lemma h_config_body_config_h s :
  defined "HAVE_CONFIG_H" (h_config_body s) = defined "HAVE_CONFIG_H" s.
Proof. unfold h_config_body, seq. by frame_config. Qed.

Lemma h_config_body_usleep s :
  defined "HAVE_USLEEP" (h_config_body s)
  = defined "SET_UID" (h_config_body s) && negb (defined "HAVE_CONFIG_H" s)
    || defined "HAVE_USLEEP" s.
Proof.
  rewrite h_config_body_set_uid, h_config_body_windows.
  unfold h_config_body, seq. rewrite have_usleep_defined. frame_config.
  rewrite multi_user_set_uid, platform_classifier_windows. by frame_config.
Qed.

Lemma h_config_body_usleep_events s :
  events "HAVE_USLEEP" (h_config_body s)
  = events "HAVE_USLEEP" s
    ++ (if defined "SET_UID" (h_config_body s)
           && negb (defined "HAVE_CONFIG_H" s)
        then [Ev_define "HAVE_USLEEP" (Obj Empty)] else []).
Proof.
  rewrite h_config_body_set_uid, h_config_body_windows.
  unfold h_config_body, seq. rewrite have_usleep_events. frame_config.
  rewrite multi_user_set_uid, platform_classifier_windows. by frame_config.
Qed.

(** *** The header behind its guard *)

Lemma h_config_first s :
  defined "INCLUDED_H_CONFIG_H" s = false ->
  h_config s = h_config_body (define "INCLUDED_H_CONFIG_H" (Obj Empty) s).
Proof. intros G. unfold h_config, ifndef, if_else, seq. by rewrite G. Qed.

Lemma h_config_again s :
  defined "INCLUDED_H_CONFIG_H" s = true -> h_config s = s.
Proof. intros G. unfold h_config, ifndef, if_else, skip. by rewrite G. Qed.

Lemma guard_config_confined :
  confined ["INCLUDED_H_CONFIG_H"] (define "INCLUDED_H_CONFIG_H" (Obj Empty)).
Proof. cpp_confined. Qed.

End ConfigHeader.

Section SystemHeader.

Implicit Types (s : cpp).

(** *** The groups of h-system.h *)

Lemma multi_user_types_confined : confined [] multi_user_types.
Proof. unfold multi_user_types. cpp_confined. Qed.

Lemma posix_facilities_confined : confined [] posix_facilities.
Proof. unfold posix_facilities. cpp_confined. Qed.

Lemma multi_user_facilities_confined :
  confined ["WINDOWS"; "SET_UID"] multi_user_facilities.
Proof.
  unfold multi_user_facilities, posix_facilities, demote. cpp_confined.
Qed.

Lemma posix_facilities_headers s :
  headers (posix_facilities s)
  = headers s ++ ["sys/param.h"; "sys/file.h"]
    ++ (if defined "__linux__" s then ["sys/file.h"] else [])
    ++ ["pwd.h"; "unistd.h"].
Proof.
  unfold posix_facilities, seq, ifdef, if_else, skip.
  change (defined "__linux__" (include "sys/file.h" (include "sys/param.h" s)))
    with (defined "__linux__" s).
  destruct (defined "__linux__" s);
    rewrite !headers_include, <- !app_assoc; reflexivity.
Qed.

Lemma demote_headers s : headers (demote s) = headers s.
Proof.
  unfold demote, seq, ifndef, if_else, skip.
  destruct (defined "WINDOWS" s);
    by rewrite headers_undef, ?headers_define.
Qed.

Lemma demote_set_uid s : defined "SET_UID" (demote s) = false.
Proof. unfold demote, seq. apply defined_undef_eq. Qed.

Lemma demote_windows s : defined "WINDOWS" (demote s) = true.
Proof.
  unfold demote, seq, ifndef, if_else, skip.
  rewrite (frame_defined _ ["SET_UID"]) by (reflexivity || cpp_confined).
  destruct (defined "WINDOWS" s) eqn:W; [done | apply defined_define_eq].
Qed.

Lemma demote_windows_value s :
  defined "WINDOWS" s = true -> value "WINDOWS" (demote s) = value "WINDOWS" s.
Proof.
  intros W. unfold demote, seq, ifndef, if_else, skip. rewrite W.
  by rewrite (frame_value _ ["SET_UID"]) by (reflexivity || cpp_confined).
Qed.

Lemma demote_set_uid_events s :
  events "SET_UID" (demote s) = events "SET_UID" s ++ [Ev_undef "SET_UID"].
Proof.
  unfold demote, seq. rewrite events_undef_eq. f_equal.
  apply (frame_events _ ["WINDOWS"]); [cpp_confined | reflexivity].
Qed.

Lemma demote_windows_events s :
  events "WINDOWS" (demote s)
  = events "WINDOWS" s
    ++ (if defined "WINDOWS" s then []
        else [Ev_define "WINDOWS" (Obj Empty)]).
Proof.
  unfold demote, seq.
  rewrite (frame_events _ ["SET_UID"]) by (reflexivity || cpp_confined).
  unfold ifndef, if_else, skip.
  destruct (defined "WINDOWS" s); [by rewrite app_nil_r | apply events_define_eq].
Qed.

Lemma multi_user_types_headers s :
  headers (multi_user_types s)
  = headers s
    ++ (if defined "SET_UID" s
        then ["sys/types.h"]
             ++ (if defined "__linux__" s then ["sys/time.h"] else [])
             ++ ["sys/timeb.h"]
        else []).
Proof.
  unfold multi_user_types, seq, ifdef, when, if_else, skip.
  rewrite defined_include.
  destruct (defined "SET_UID" s), (defined "__linux__" s);
    rewrite ?headers_include, <- ?app_assoc, ?app_nil_r; reflexivity.
Qed.

Lemma io_confined : confined [] (when (defined "WINDOWS") (include "io.h")).
Proof. cpp_confined. Qed.

Lemma io_headers s :
  headers (when (defined "WINDOWS") (include "io.h") s)
  = headers s ++ (if defined "WINDOWS" s then ["io.h"] else []).
Proof.
  unfold when, if_else, skip.
  destruct (defined "WINDOWS" s); [apply headers_include | by rewrite app_nil_r].
Qed.

Lemma multi_user_facilities_set_uid s :
  defined "SET_UID" (multi_user_facilities s)
  = defined "SET_UID" s && negb (defined "_MSC_VER" s).
Proof.
  unfold multi_user_facilities, ifdef, ifndef_else, if_else, skip, seq.
  destruct (defined "SET_UID" s) eqn:U; [| by rewrite U].
  rewrite defined_include. destruct (defined "_MSC_VER" s).
  - apply demote_set_uid.
  - by rewrite (frame_defined _ _ _ _ posix_facilities_confined).
Qed.

Lemma multi_user_facilities_windows s :
  defined "WINDOWS" (multi_user_facilities s)
  = defined "WINDOWS" s || defined "SET_UID" s && defined "_MSC_VER" s.
Proof.
  unfold multi_user_facilities, ifdef, ifndef_else, if_else, skip, seq.
  destruct (defined "SET_UID" s) eqn:U; [| by rewrite orb_false_r].
  rewrite defined_include. destruct (defined "_MSC_VER" s).
  - rewrite demote_windows. by rewrite orb_true_r.
  - rewrite (frame_defined _ _ _ _ posix_facilities_confined) by reflexivity.
    by rewrite orb_false_r.
Qed.

Lemma multi_user_facilities_headers s :
  headers (multi_user_facilities s)
  = headers s
    ++ (if defined "SET_UID" s
        then (if defined "_MSC_VER" s then []
              else ["sys/param.h"; "sys/file.h"]
                   ++ (if defined "__linux__" s then ["sys/file.h"] else [])
                   ++ ["pwd.h"; "unistd.h"])
             ++ ["sys/stat.h"]
        else []).
Proof.
  unfold multi_user_facilities, ifdef, ifndef_else, if_else, skip, seq.
  destruct (defined "SET_UID" s); [| by rewrite app_nil_r].
  rewrite headers_include. destruct (defined "_MSC_VER" s).
  - by rewrite demote_headers.
  - by rewrite posix_facilities_headers, <- !app_assoc.
Qed.

(** The demotion, where it fires. *)
Lemma multi_user_facilities_demotes s :
  defined "SET_UID" s = true -> defined "_MSC_VER" s = true ->
  multi_user_facilities s = include "sys/stat.h" (demote s).
Proof.
  intros U M.
  unfold multi_user_facilities, ifdef, ifndef_else, if_else, skip, seq.
  by rewrite U, M.
Qed.

End SystemHeader.

Ltac through_include :=
  match goal with
  | |- context [defined ?k (include ?h ?s)] => rewrite (defined_include h k s)
  | |- context [value ?k (include ?h ?s)] => rewrite (value_include h k s)
  | |- context [events ?k (include ?h ?s)] => rewrite (events_include h k s)
  | |- context [headers (include ?h ?s)] => rewrite (headers_include h s)
  end.

Ltac frame_system :=
  repeat first
    [ through_include
    | frame_with multi_user_types_confined | frame_with io_confined
    | frame_with multi_user_facilities_confined ].

Section SystemBody.

Implicit Types (s : cpp).

(** *** The body of h-system.h, and the header behind its guard *)

Lemma h_system_body_set_uid s :
  defined "SET_UID" (h_system_body s)
  = defined "SET_UID" s && negb (defined "_MSC_VER" s).
Proof.
  unfold h_system_body, seq. frame_system.
  rewrite multi_user_facilities_set_uid. by frame_system.
Qed.

Lemma h_system_body_windows s :
  defined "WINDOWS" (h_system_body s)
  = defined "WINDOWS" s || defined "SET_UID" s && defined "_MSC_VER" s.
Proof.
  unfold h_system_body, seq. frame_system.
  rewrite multi_user_facilities_windows. by frame_system.
Qed.

Lemma h_system_body_headers s :
  headers (h_system_body s)
  = headers s
    ++ ["stdio.h"; "ctype.h"; "errno.h"; "stdlib.h"]
    ++ (if defined "SET_UID" s
        then ["sys/types.h"]
             ++ (if defined "__linux__" s then ["sys/time.h"] else [])
             ++ ["sys/timeb.h"]
        else [])
    ++ ["time.h"]
    ++ (if defined "WINDOWS" s then ["io.h"] else [])
    ++ ["memory.h"; "fcntl.h"]
    ++ (if defined "SET_UID" s
        then (if defined "_MSC_VER" s then []
              else ["sys/param.h"; "sys/file.h"]
                   ++ (if defined "__linux__" s then ["sys/file.h"] else [])
                   ++ ["pwd.h"; "unistd.h"])
             ++ ["sys/stat.h"]
        else [])
    ++ ["string.h"; "stdarg.h"].
Proof.
  unfold h_system_body, seq. frame_system.
  rewrite multi_user_facilities_headers. frame_system.
  rewrite io_headers. frame_system.
  rewrite multi_user_types_headers. frame_system.
  by rewrite <- !app_assoc.
Qed.

Lemma h_system_first s :
  defined "INCLUDED_H_SYSTEM_H" s = false ->
  h_system s = h_system_body (define "INCLUDED_H_SYSTEM_H" (Obj Empty) s).
Proof. intros G. unfold h_system, ifndef, if_else, seq. by rewrite G. Qed.

Lemma h_system_again s :
  defined "INCLUDED_H_SYSTEM_H" s = true -> h_system s = s.
Proof. intros G. unfold h_system, ifndef, if_else, skip. by rewrite G. Qed.

Lemma guard_system_confined :
  confined ["INCLUDED_H_SYSTEM_H"] (define "INCLUDED_H_SYSTEM_H" (Obj Empty)).
Proof. cpp_confined. Qed.

(** Header aggregation keeps MultiUserFlag the negation of WindowsFamily. *)
Lemma h_system_consistent s : consistent s -> consistent (h_system s).
Proof.
  unfold consistent. intros C.
  destruct (defined "INCLUDED_H_SYSTEM_H" s) eqn:G;
    [by rewrite h_system_again |].
  rewrite h_system_first by done.
  rewrite h_system_body_set_uid, h_system_body_windows.
  repeat frame_with guard_system_confined. rewrite C.
  by destruct (defined "WINDOWS" s), (defined "_MSC_VER" s).
Qed.

End SystemBody.

(** ** The flags: what the headers guarantee *)

Section FlagTheorems.

Implicit Types (s : cpp).

(** C1, as stated, fails: in a build whose command line already defines
    both WINDOWS and SET_UID, h-config.h leaves both defined, and so does
    h-system.h under a toolchain other than _MSC_VER. *)
Lemma set_uid_survives_windows :
  defined "INCLUDED_H_CONFIG_H" (start both_flags) = false
  /\ defined "SET_UID" (h_config (start both_flags)) = true
  /\ defined "WINDOWS" (h_config (start both_flags)) = true
  /\ defined "SET_UID" (h_system (h_config (start both_flags))) = true
  /\ defined "WINDOWS" (h_system (h_config (start both_flags))) = true
  /\ ~ consistent (h_config (start both_flags))
  /\ ~ consistent (h_system (h_config (start both_flags))).
Proof. unfold consistent. vm_compute. repeat split; discriminate. Qed.

(** C1, amended: in a build that reads h-config.h without both a SET_UID of
    its own and a Windows signal (WINDOWS, _WIN32 or WIN32), SET_UID is
    defined if and only if WINDOWS is not, after h-config.h and again after
    h-system.h; these are all the builds in which the equivalence holds at
    both points.  The demotion of h-system.h under _MSC_VER keeps the
    equivalence of any state that has it. *)
Theorem multi_user_negates_windows s
    (Hguard : defined "INCLUDED_H_CONFIG_H" s = false) :
  (consistent (h_config s) /\ consistent (h_system (h_config s))
   <-> defined "SET_UID" s = false
       \/ defined "WINDOWS" s || defined "_WIN32" s || defined "WIN32" s
          = false)
  /\ (consistent (h_config s)
      <-> (defined "SET_UID" (h_config s) = true
           <-> defined "WINDOWS" (h_config s) = false))
  /\ (consistent (h_system (h_config s))
      <-> (defined "SET_UID" (h_system (h_config s)) = true
           <-> defined "WINDOWS" (h_system (h_config s)) = false))
  /\ (forall s', consistent s' -> consistent (h_system s')).
Proof.
  assert (C : consistent (h_config s)
              <-> defined "SET_UID" s = false
                  \/ defined "WINDOWS" s || defined "_WIN32" s
                     || defined "WIN32" s = false).
  { unfold consistent. rewrite h_config_first by done.
    rewrite h_config_body_set_uid, h_config_body_windows.
    repeat frame_with guard_config_confined.
    destruct (defined "SET_UID" s),
      (defined "WINDOWS" s || defined "_WIN32" s || defined "WIN32" s);
      cbn; intuition congruence. }
  split; [| split; [| split; [| exact h_system_consistent]]].
  - rewrite <- C. split; [tauto |].
    intros H. split; [exact H | by apply h_system_consistent].
  - unfold consistent.
    destruct (defined "SET_UID" (h_config s)),
      (defined "WINDOWS" (h_config s)); cbn; intuition congruence.
  - unfold consistent.
    destruct (defined "SET_UID" (h_system (h_config s))),
      (defined "WINDOWS" (h_system (h_config s))); cbn; intuition congruence.
Qed.

Lemma multi_user_negates_windows_witness :
  (consistent (h_config (start msc_build))
   /\ consistent (h_system (h_config (start msc_build))))
  /\ (consistent
        (h_config (start {[ "SET_UID" := Obj (IntLit 1);
                            "__linux__" := Obj (IntLit 1) ]}))
      /\ consistent
           (h_system
              (h_config (start {[ "SET_UID" := Obj (IntLit 1);
                                  "__linux__" := Obj (IntLit 1) ]})))).
Proof.
  split.
  - unshelve
    refine (proj2 (proj1 (multi_user_negates_windows (start msc_build) _)) _);
      [reflexivity | left; reflexivity].
  - unshelve
    refine (proj2 (proj1 (multi_user_negates_windows
                            (start {[ "SET_UID" := Obj (IntLit 1);
                                      "__linux__" := Obj (IntLit 1) ]}) _)) _);
      [reflexivity | right; reflexivity].
Defined.

(** C2: once h-config.h has been read, PATH_SEP is the one-character string
    backslash when WINDOWS is defined and the one-character string slash
    otherwise, whatever PATH_SEP was before.  The header first undefines
    PATH_SEP and defines it as slash, and then, when WINDOWS is defined,
    undefines it again and defines it as backslash, without looking at
    what it holds. *)
Theorem path_sep_resolution s
    (Hguard : defined "INCLUDED_H_CONFIG_H" s = false) :
  value "PATH_SEP" (h_config s)
  = Some (Obj (StrLit (if defined "WINDOWS" (h_config s) then "\" else "/")))
  /\ String.length (if defined "WINDOWS" (h_config s) then "\" else "/")
     = 1%nat
  /\ defined "WINDOWS" (h_config s)
     = defined "WINDOWS" s || defined "_WIN32" s || defined "WIN32" s
  /\ events "PATH_SEP" (h_config s)
     = events "PATH_SEP" s
       ++ [Ev_undef "PATH_SEP"; Ev_define "PATH_SEP" (Obj (StrLit "/"))]
       ++ (if defined "WINDOWS" (h_config s)
           then [Ev_undef "PATH_SEP"; Ev_define "PATH_SEP" (Obj (StrLit "\"))]
           else [])
  /\ (forall s0, value "PATH_SEP" (path_sep_default s0)
                 = Some (Obj (StrLit "/")))
  /\ (forall s0, defined "WINDOWS" s0 = true ->
                 value "PATH_SEP" (path_sep_windows s0)
                 = Some (Obj (StrLit "\")))
  /\ (forall s0, defined "WINDOWS" s0 = false -> path_sep_windows s0 = s0).
Proof.
  rewrite h_config_first by done.
  split; [apply h_config_body_path_sep |].
  split; [by destruct (defined "WINDOWS" _) |].
  split; [rewrite h_config_body_windows;
          by repeat frame_with guard_config_confined |].
  split; [rewrite h_config_body_path_sep_events;
          by repeat frame_with guard_config_confined |].
  split; [apply path_sep_default_value |].
  split; intros s0 W.
  - by rewrite path_sep_windows_value, W.
  - unfold path_sep_windows, when, if_else, skip. by rewrite W.
Qed.

Lemma path_sep_resolution_witness :
  value "PATH_SEP" (h_config (start win32_build)) = Some (Obj (StrLit "\")).
Proof.
  exact (proj1 (path_sep_resolution (start win32_build) eq_refl)).
Defined.

(** C3: h-config.h defines HAVE_USLEEP exactly when, at that point, SET_UID
    is defined and HAVE_CONFIG_H is not: it does not define it when SET_UID is
    undefined, whatever HAVE_CONFIG_H is, and it defines it only when SET_UID
    is defined and HAVE_CONFIG_H is absent.  Where the build did not bring a
    HAVE_USLEEP of its own, the flag after the header is that condition. *)
Theorem have_usleep_resolution s
    (Hguard : defined "INCLUDED_H_CONFIG_H" s = false) :
  events "HAVE_USLEEP" (h_config s)
  = events "HAVE_USLEEP" s
    ++ (if defined "SET_UID" (h_config s)
           && negb (defined "HAVE_CONFIG_H" (h_config s))
        then [Ev_define "HAVE_USLEEP" (Obj Empty)] else [])
  /\ defined "HAVE_CONFIG_H" (h_config s) = defined "HAVE_CONFIG_H" s
  /\ defined "HAVE_USLEEP" (h_config s)
     = defined "SET_UID" (h_config s)
         && negb (defined "HAVE_CONFIG_H" (h_config s))
       || defined "HAVE_USLEEP" s
  /\ (defined "SET_UID" (h_config s) = false ->
      events "HAVE_USLEEP" (h_config s) = events "HAVE_USLEEP" s
      /\ defined "HAVE_USLEEP" (h_config s) = defined "HAVE_USLEEP" s)
  /\ (defined "HAVE_USLEEP" s = false ->
      (defined "HAVE_USLEEP" (h_config s) = true
       <-> defined "SET_UID" (h_config s) = true
           /\ defined "HAVE_CONFIG_H" (h_config s) = false)).
Proof.
  assert (H : defined "HAVE_CONFIG_H" (h_config s) = defined "HAVE_CONFIG_H" s).
  { rewrite h_config_first by done. rewrite h_config_body_config_h.
    by repeat frame_with guard_config_confined. }
  assert (E : events "HAVE_USLEEP" (h_config s)
              = events "HAVE_USLEEP" s
                ++ (if defined "SET_UID" (h_config s)
                       && negb (defined "HAVE_CONFIG_H" (h_config s))
                    then [Ev_define "HAVE_USLEEP" (Obj Empty)] else [])).
  { rewrite H, h_config_first by done. rewrite h_config_body_usleep_events.
    by repeat frame_with guard_config_confined. }
  assert (D : defined "HAVE_USLEEP" (h_config s)
              = defined "SET_UID" (h_config s)
                  && negb (defined "HAVE_CONFIG_H" (h_config s))
                || defined "HAVE_USLEEP" s).
  { rewrite H, h_config_first by done. rewrite h_config_body_usleep.
    by repeat frame_with guard_config_confined. }
  split; [exact E |]. split; [exact H |]. split; [exact D |]. split.
  - intros U. rewrite E, D, U. cbn [andb orb]. by rewrite app_nil_r.
  - intros F. rewrite D, F, orb_false_r, andb_true_iff, negb_true_iff. done.
Qed.

Lemma have_usleep_resolution_witness :
  defined "HAVE_USLEEP" (h_config (start ∅)) = true
  /\ defined "HAVE_USLEEP"
       (h_config (start {[ "HAVE_CONFIG_H" := Obj Empty ]})) = false
  /\ defined "HAVE_USLEEP" (h_config (start {[ "_WIN32" := Obj Empty ]}))
     = false.
Proof.
  refine (conj (eq_trans (proj1 (proj2 (proj2
                  (have_usleep_resolution (start ∅) _)))) _)
          (conj (eq_trans (proj1 (proj2 (proj2
                  (have_usleep_resolution
                     (start {[ "HAVE_CONFIG_H" := Obj Empty ]}) _)))) _)
                (eq_trans (proj1 (proj2 (proj2
                  (have_usleep_resolution
                     (start {[ "_WIN32" := Obj Empty ]}) _)))) _)));
    reflexivity.
Defined.

(** C5: when h-system.h is read with SET_UID defined under _MSC_VER, it
    defines WINDOWS unless WINDOWS is already defined, and undefines SET_UID;
    afterwards SET_UID is undefined and WINDOWS is defined.  The header still
    runs to its end: it asks for the headers every build gets and for
    sys/stat.h, and for none of sys/param.h, sys/file.h, pwd.h and
    unistd.h. *)
Theorem msc_demotes_multi_user s
    (Hguard : defined "INCLUDED_H_SYSTEM_H" s = false)
    (Huid : defined "SET_UID" s = true)
    (Hmsc : defined "_MSC_VER" s = true) :
  defined "SET_UID" (h_system s) = false
  /\ defined "WINDOWS" (h_system s) = true
  /\ events "SET_UID" (h_system s) = events "SET_UID" s ++ [Ev_undef "SET_UID"]
  /\ events "WINDOWS" (h_system s)
     = events "WINDOWS" s
       ++ (if defined "WINDOWS" s then []
           else [Ev_define "WINDOWS" (Obj Empty)])
  /\ (defined "WINDOWS" s = true ->
      value "WINDOWS" (h_system s) = value "WINDOWS" s)
  /\ headers (h_system s)
     = headers s
       ++ ["stdio.h"; "ctype.h"; "errno.h"; "stdlib.h"; "sys/types.h"]
       ++ (if defined "__linux__" s then ["sys/time.h"] else [])
       ++ ["sys/timeb.h"; "time.h"]
       ++ (if defined "WINDOWS" s then ["io.h"] else [])
       ++ ["memory.h"; "fcntl.h"; "sys/stat.h"; "string.h"; "stdarg.h"].
Proof.
  rewrite h_system_first by done.
  set (s0 := define "INCLUDED_H_SYSTEM_H" (Obj Empty) s).
  assert (U0 : defined "SET_UID" s0 = true)
    by (subst s0; by repeat frame_with guard_system_confined).
  assert (M0 : defined "_MSC_VER" s0 = true)
    by (subst s0; by repeat frame_with guard_system_confined).
  assert (W0 : defined "WINDOWS" s0 = defined "WINDOWS" s)
    by (subst s0; by repeat frame_with guard_system_confined).
  assert (L0 : defined "__linux__" s0 = defined "__linux__" s)
    by (subst s0; by repeat frame_with guard_system_confined).
  split; [by rewrite h_system_body_set_uid, U0, M0 |].
  split; [by rewrite h_system_body_windows, U0, M0, orb_true_r |].
  split; [| split; [| split]].
  - unfold h_system_body, seq. frame_system.
    rewrite multi_user_facilities_demotes by (by frame_system).
    frame_system. rewrite demote_set_uid_events. frame_system.
    subst s0. by repeat frame_with guard_system_confined.
  - unfold h_system_body, seq. frame_system.
    rewrite multi_user_facilities_demotes by (by frame_system).
    frame_system. rewrite demote_windows_events. frame_system.
    rewrite W0. subst s0. by repeat frame_with guard_system_confined.
  - intros W. unfold h_system_body, seq. frame_system.
    rewrite multi_user_facilities_demotes by (by frame_system).
    frame_system. rewrite demote_windows_value by (frame_system; congruence).
    frame_system. subst s0. by repeat frame_with guard_system_confined.
  - rewrite h_system_body_headers, U0, M0, W0, L0.
    subst s0. rewrite headers_define. cbn [app]. by rewrite <- !app_assoc.
Qed.

Lemma msc_demotes_multi_user_witness :
  defined "SET_UID" (h_config (start msc_build)) = true
  /\ defined "SET_UID" (h_system (h_config (start msc_build))) = false
  /\ defined "WINDOWS" (h_system (h_config (start msc_build))) = true.
Proof.
  split; [reflexivity |].
  refine (let H := msc_demotes_multi_user (h_config (start msc_build)) _ _ _ in
          conj (proj1 H) (proj1 (proj2 H))); reflexivity.
Defined.

(** The demotion comes after h-config.h has chosen PATH_SEP and HAVE_USLEEP,
    and it does not choose them again. *)
Remark demotion_keeps_derived_flags :
  defined "WINDOWS" (h_system (h_config (start msc_build))) = true
  /\ defined "SET_UID" (h_system (h_config (start msc_build))) = false
  /\ value "PATH_SEP" (h_system (h_config (start msc_build)))
     = Some (Obj (StrLit "/"))
  /\ defined "HAVE_USLEEP" (h_system (h_config (start msc_build))) = true.
Proof. vm_compute. repeat split; reflexivity. Qed.

End FlagTheorems.

(** ** The fallback constants of h-define.h *)

Section Define.

Implicit Types (s : cpp) (n k : string) (m : macro).

Lemma define_if_absent_confined n m : confined [n] (define_if_absent n m).
Proof.
  unfold define_if_absent. cpp_unfold.
  apply confined_if_else; [apply confined_skip | apply confined_define].
  cbn. by rewrite String.eqb_refl.
Qed.

Lemma define_if_absent_value n m s :
  value n (define_if_absent n m s) = Some (default m (value n s)).
Proof.
  unfold define_if_absent, ifndef, if_else, skip.
  destruct (defined n s) eqn:D.
  - apply defined_true in D as [d Hd]. by rewrite Hd.
  - apply defined_false in D. rewrite D. apply value_define_eq.
Qed.

Lemma define_if_absent_events n m s :
  events n (define_if_absent n m s)
  = events n s ++ (if defined n s then [] else [Ev_define n m]).
Proof.
  unfold define_if_absent, ifndef, if_else, skip.
  destruct (defined n s); [by rewrite app_nil_r | apply events_define_eq].
Qed.

Lemma define_if_absent_defined n m s : defined n (define_if_absent n m s) = true.
Proof. apply defined_true. rewrite define_if_absent_value. eauto. Qed.

Lemma define_if_absent_twice n m s :
  define_if_absent n m (define_if_absent n m s) = define_if_absent n m s.
Proof.
  unfold define_if_absent at 1. unfold ifndef, if_else, skip.
  by rewrite define_if_absent_defined.
Qed.

Lemma null_constant_confined : confined ["NULL"] null_constant.
Proof. apply define_if_absent_confined. Qed.

Lemma boolean_constants_confined : confined ["TRUE"; "FALSE"] boolean_constants.
Proof. unfold boolean_constants, redefine. cpp_confined. Qed.

Lemma numeric_macros_confined :
  confined ["MIN"; "MAX"; "ABS"; "SGN"; "ORDERED"] numeric_macros.
Proof. unfold numeric_macros, redefine. cpp_confined. Qed.

Lemma character_macros_confined :
  confined ["A2I"; "I2A"; "D2I"; "I2D"; "KTRL"; "UN_KTRL"; "ESCAPE"]
    character_macros.
Proof. unfold character_macros. cpp_confined. Qed.

Lemma fallthrough_confined : confined ["FALLTHROUGH"] fallthrough.
Proof. unfold fallthrough. cpp_confined. Qed.

Lemma guard_define_confined :
  confined ["INCLUDED_H_DEFINE_H"] (define "INCLUDED_H_DEFINE_H" (Obj Empty)).
Proof. cpp_confined. Qed.

Lemma h_define_first s :
  defined "INCLUDED_H_DEFINE_H" s = false ->
  h_define s = h_define_body (define "INCLUDED_H_DEFINE_H" (Obj Empty) s).
Proof. intros G. unfold h_define, ifndef, if_else, seq. by rewrite G. Qed.

Lemma h_define_again s :
  defined "INCLUDED_H_DEFINE_H" s = true -> h_define s = s.
Proof. intros G. unfold h_define, ifndef, if_else, skip. by rewrite G. Qed.

End Define.

Ltac frame_define_if_absent :=
  match goal with
  | |- context [value ?n (define_if_absent ?n ?m ?s)] =>
      rewrite (define_if_absent_value n m s)
  | |- context [events ?n (define_if_absent ?n ?m ?s)] =>
      rewrite (define_if_absent_events n m s)
  | |- context [define_if_absent ?n ?m ?s] =>
      frame_with (define_if_absent_confined n m)
  end.

Ltac frame_define :=
  repeat first
    [ frame_with fallthrough_confined | frame_with character_macros_confined
    | frame_with numeric_macros_confined | frame_with boolean_constants_confined
    | frame_with null_constant_confined | frame_with guard_define_confined
    | frame_define_if_absent ].

Section DefineHeader.

Implicit Types (s : cpp) (n : string) (v : Z).

(** The six names and values, one at a time. *)
Lemma fallback_table_cases n v (P : string -> Z -> Prop) :
  In (n, v) fallback_table ->
  P "SEEK_SET" 0 -> P "SEEK_CUR" 1 -> P "SEEK_END" 2 ->
  P "F_UNLCK" 0 -> P "F_RDLCK" 1 -> P "F_WRLCK" 2 ->
  P n v.
Proof.
  unfold fallback_table. cbn [In].
  intros [H|[H|[H|[H|[H|[H|[]]]]]]]; injection H as <- <-; auto.
Qed.

Lemma fallback_constants_value s n v :
  In (n, v) fallback_table ->
  value n (fallback_constants s) = Some (default (Obj (IntLit v)) (value n s)).
Proof.
  intros Hin. revert n v Hin. intros n v Hin.
  apply (fallback_table_cases n v
           (fun n v => value n (fallback_constants s)
                       = Some (default (Obj (IntLit v)) (value n s))) Hin);
    unfold fallback_constants, seek_constants, lock_constants, seq;
    by frame_define.
Qed.

Lemma fallback_constants_events s n v :
  In (n, v) fallback_table ->
  events n (fallback_constants s)
  = events n s
    ++ (if defined n s then [] else [Ev_define n (Obj (IntLit v))]).
Proof.
  intros Hin.
  apply (fallback_table_cases n v
           (fun n v => events n (fallback_constants s)
                       = events n s
                         ++ (if defined n s then []
                             else [Ev_define n (Obj (IntLit v))])) Hin);
    unfold fallback_constants, seek_constants, lock_constants, seq;
    frame_define; rewrite ?defined_value; by frame_define.
Qed.

Lemma h_define_body_value s n v :
  In (n, v) fallback_table ->
  value n (h_define_body s) = value n (fallback_constants s).
Proof.
  intros Hin.
  apply (fallback_table_cases n v
           (fun n v => value n (h_define_body s)
                       = value n (fallback_constants s)) Hin);
    unfold h_define_body, seq; frame_with fallthrough_confined;
    frame_with character_macros_confined; frame_with numeric_macros_confined;
    frame_with boolean_constants_confined;
    unfold fallback_constants, seek_constants, lock_constants, seq;
    by frame_define.
Qed.

Lemma h_define_body_events s n v :
  In (n, v) fallback_table ->
  events n (h_define_body s) = events n (fallback_constants s).
Proof.
  intros Hin.
  apply (fallback_table_cases n v
           (fun n v => events n (h_define_body s)
                       = events n (fallback_constants s)) Hin);
    unfold h_define_body, seq; frame_with fallthrough_confined;
    frame_with character_macros_confined; frame_with numeric_macros_confined;
    frame_with boolean_constants_confined;
    unfold fallback_constants, seek_constants, lock_constants, seq;
    frame_define; rewrite ?defined_value; by frame_define.
Qed.

Lemma guard_define_value s n v :
  In (n, v) fallback_table ->
  value n (define "INCLUDED_H_DEFINE_H" (Obj Empty) s) = value n s.
Proof.
  intros Hin.
  apply (fallback_table_cases n v
           (fun n v => value n (define "INCLUDED_H_DEFINE_H" (Obj Empty) s)
                       = value n s) Hin);
    by frame_with guard_define_confined.
Qed.

Lemma guard_define_events s n v :
  In (n, v) fallback_table ->
  events n (define "INCLUDED_H_DEFINE_H" (Obj Empty) s) = events n s.
Proof.
  intros Hin.
  apply (fallback_table_cases n v
           (fun n v => events n (define "INCLUDED_H_DEFINE_H" (Obj Empty) s)
                       = events n s) Hin);
    by frame_with guard_define_confined.
Qed.

(** Reading the header a second time changes nothing at all. *)
Lemma h_define_twice s : h_define (h_define s) = h_define s.
Proof.
  destruct (defined "INCLUDED_H_DEFINE_H" s) eqn:G.
  - by rewrite !(h_define_again s G).
  - apply h_define_again. rewrite h_define_first by done.
    unfold h_define_body, fallback_constants, seek_constants, lock_constants,
      seq.
    frame_define. apply defined_define_eq.
Qed.

(** C4: each of SEEK_SET, SEEK_CUR, SEEK_END, F_UNLCK, F_RDLCK and F_WRLCK
    keeps the definition it had before h-define.h, if it had one, and gets
    its value of the header (0, 1, 2, 0, 1, 2) otherwise; the header defines
    it only in the second case.  Going through the header again, or through
    its definitions again without the guard, leaves the six as the first
    pass resolved them. *)
Theorem fallback_constants_resolution s n v
    (Hguard : defined "INCLUDED_H_DEFINE_H" s = false)
    (Hin : In (n, v) fallback_table) :
  value n (h_define s) = Some (default (Obj (IntLit v)) (value n s))
  /\ (forall d, value n s = Some d -> value n (h_define s) = Some d)
  /\ (value n s = None -> value n (h_define s) = Some (Obj (IntLit v)))
  /\ events n (h_define s)
     = events n s
       ++ (if defined n s then [] else [Ev_define n (Obj (IntLit v))])
  /\ value n (h_define (h_define s)) = value n (h_define s)
  /\ value n (h_define_body (h_define s)) = value n (h_define s)
  /\ value n (fallback_constants (h_define s)) = value n (h_define s).
Proof.
  assert (V : value n (h_define s)
              = Some (default (Obj (IntLit v)) (value n s))).
  { rewrite h_define_first by done.
    rewrite (h_define_body_value _ n v), (fallback_constants_value _ n v),
      (guard_define_value _ n v); done. }
  assert (F : value n (fallback_constants (h_define s)) = value n (h_define s)).
  { by rewrite (fallback_constants_value _ n v), V. }
  split; [exact V |]. split; [| split; [| split; [| split; [| split]]]].
  - intros d Hd. by rewrite V, Hd.
  - intros Hd. by rewrite V, Hd.
  - rewrite h_define_first by done.
    rewrite (h_define_body_events _ n v), (fallback_constants_events _ n v),
      (guard_define_events _ n v) by done.
    by rewrite !defined_value, (guard_define_value _ n v).
  - by rewrite h_define_twice.
  - by rewrite (h_define_body_value _ n v).
  - exact F.
Qed.

Lemma fallback_constants_resolution_witness :
  value "F_UNLCK" (h_define (start platform_locks)) = Some (Obj (IntLit 2))
  /\ value "SEEK_END" (h_define (start platform_locks)) = Some (Obj (IntLit 2))
  /\ value "F_UNLCK" (h_define (h_define (start platform_locks)))
     = value "F_UNLCK" (h_define (start platform_locks)).
Proof.
  unshelve
  refine (let H := fallback_constants_resolution
                     (start platform_locks) "F_UNLCK" 0 _ _ in
          let H' := fallback_constants_resolution
                      (start platform_locks) "SEEK_END" 2 _ _ in
          conj (proj1 H)
            (conj (proj1 H') (proj1 (proj2 (proj2 (proj2 (proj2 H)))))));
    first [reflexivity | cbn; tauto].
Defined.

End DefineHeader.

(** ** The macros of h-define.h *)

Section MacroTheorems.

Import Macros.

Lemma of_bool_truth (b : bool) : C.truth (C.of_bool b) = b.
Proof. by destruct b. Qed.

Lemma le_spec (x y : Z) : C.truth (C.le x y) = true <-> x <= y.
Proof. unfold C.le. rewrite of_bool_truth. apply Z.leb_le. Qed.

Lemma and_spec (x y : Z) :
  C.truth (C.and x y) = true <-> C.truth x = true /\ C.truth y = true.
Proof. unfold C.and. rewrite of_bool_truth. apply andb_true_iff. Qed.

Lemma or_spec (x y : Z) :
  C.truth (C.or x y) = true <-> C.truth x = true \/ C.truth y = true.
Proof. unfold C.or. rewrite of_bool_truth. apply orb_true_iff. Qed.

Lemma ORDERED_truth (a b c : Z) :
  C.truth (ORDERED a b c) = true <-> a <= b <= c \/ c <= b <= a.
Proof.
  unfold ORDERED. rewrite or_spec, !and_spec, !le_spec. tauto.
Qed.

(** C6: ORDERED(a, b, c) is true exactly when a <= b <= c or c <= b <= a; as
    a C expression it is 1 then and 0 otherwise.  It is true at (1,2,3),
    (3,2,1) and (2,2,2), and false at (1,3,2). *)
Theorem ORDERED_between (a b c : Z) :
  (C.truth (ORDERED a b c) = true <-> a <= b <= c \/ c <= b <= a)
  /\ (ORDERED a b c = 1 <-> a <= b <= c \/ c <= b <= a)
  /\ (ORDERED a b c = 0 <-> ~ (a <= b <= c \/ c <= b <= a))
  /\ ORDERED 1 2 3 = 1 /\ ORDERED 3 2 1 = 1
  /\ ORDERED 1 3 2 = 0 /\ ORDERED 2 2 2 = 1.
Proof.
  pose proof (ORDERED_truth a b c) as T.
  split; [exact T |]. rewrite <- T.
  assert (E : ORDERED a b c = C.of_bool (C.truth (ORDERED a b c))).
  { unfold ORDERED, C.or. by rewrite of_bool_truth. }
  repeat split; try reflexivity; rewrite E;
    destruct (C.truth (ORDERED a b c)); cbn; congruence.
Qed.

(** C7: SGN(a) is -1 when a < 0, 1 when a is not 0 and not negative, and 0
    when a is 0; ABS(a) is -a when a < 0 and a otherwise.  SGN(-5) = -1,
    SGN(0) = 0, SGN(7) = 1, ABS(-3) = 3 and ABS(3) = 3. *)
Theorem SGN_ABS_cases (a : Z) :
  (a < 0 -> SGN a = -1)
  /\ (a <> 0 -> ~ a < 0 -> SGN a = 1)
  /\ (a = 0 -> SGN a = 0)
  /\ (a < 0 -> ABS a = - a)
  /\ (~ a < 0 -> ABS a = a)
  /\ SGN (-5) = -1 /\ SGN 0 = 0 /\ SGN 7 = 1
  /\ ABS (-3) = 3 /\ ABS 3 = 3.
Proof.
  repeat split; try reflexivity;
    unfold SGN, ABS, C.cond, C.ne, C.lt; rewrite !of_bool_truth;
    destruct (Z.ltb_spec a 0), (Z.eqb_spec a 0); cbn [negb C.of_bool]; lia.
Qed.

Lemma SGN_ABS_cases_witness :
  SGN (-12) = -1 /\ SGN 12 = 1 /\ ABS (-12) = 12 /\ ABS 12 = 12.
Proof.
  pose (neg := SGN_ABS_cases (-12)). pose (pos := SGN_ABS_cases 12).
  split; [apply (proj1 neg); lia |].
  split; [apply (proj1 (proj2 pos)); lia |].
  split; [apply (proj1 (proj2 (proj2 (proj2 neg)))); lia |].
  apply (proj1 (proj2 (proj2 (proj2 (proj2 pos))))); lia.
Defined.

(** C8: A2I maps the letter a to 0 and the letter c to 2; I2A(A2I(x)) = x
    for every lowercase letter x, whose index lies in 0..25, and
    A2I(I2A(i)) = i for every index i in 0..25, whose letter is a lowercase
    letter. *)
Theorem letter_index_round_trip (x i : Z)
    (Hx : C.chr "a" <= x <= C.chr "z") (Hi : 0 <= i <= 25) :
  A2I (C.chr "a") = 0 /\ A2I (C.chr "c") = 2
  /\ I2A (A2I x) = x /\ 0 <= A2I x <= 25
  /\ A2I (I2A i) = i /\ C.chr "a" <= I2A i <= C.chr "z".
Proof.
  unfold A2I, I2A.
  change (C.chr "a") with 97 in *. change (C.chr "c") with 99.
  change (C.chr "z") with 122 in *. lia.
Qed.

Lemma letter_index_round_trip_witness :
  I2A (A2I (C.chr "q")) = C.chr "q" /\ A2I (I2A 16) = 16.
Proof.
  unshelve
  refine (let H := letter_index_round_trip (C.chr "q") 16 _ _ in
          conj (proj1 (proj2 (proj2 H)))
               (proj1 (proj2 (proj2 (proj2 (proj2 H))))));
    vm_compute; split; discriminate.
Defined.

Lemma KTRL_mod (c : Z) : KTRL c = c mod 32.
Proof.
  unfold KTRL. change 0x1F with (Z.ones 5).
  rewrite Z.land_ones by lia. reflexivity.
Qed.

(** C9: KTRL of the letter A is 1, and UN_KTRL(KTRL(c)) = c for every c from
    64 (the at sign) to 95 (the underscore), KTRL keeping the low five bits
    of c and UN_KTRL adding 64. *)
Theorem control_round_trip (c : Z) (Hc : 64 <= c <= 95) :
  KTRL (C.chr "A") = 1
  /\ C.chr "@" = 64 /\ C.chr "_" = 95
  /\ UN_KTRL (KTRL c) = c
  /\ KTRL c = c - 64
  /\ (forall n : Z, Z.testbit (KTRL c) n = Z.testbit c n && (n <? 5)).
Proof.
  assert (K : KTRL c = c - 64).
  { rewrite KTRL_mod. symmetry. apply (Z.mod_unique c 32 2); lia. }
  split; [reflexivity |]. split; [reflexivity |]. split; [reflexivity |].
  split; [unfold UN_KTRL; lia |]. split; [exact K |].
  intros n. unfold KTRL. change 0x1F with (Z.ones 5).
  rewrite Z.land_spec. destruct (Z.ltb_spec n 5).
  - destruct (Z.ltb_spec n 0).
    + by rewrite !Z.testbit_neg_r by lia.
    + by rewrite Z.ones_spec_low by lia.
  - by rewrite Z.ones_spec_high by lia.
Qed.

Lemma control_round_trip_witness :
  UN_KTRL (KTRL (C.chr "X")) = C.chr "X".
Proof.
  unshelve
  refine (proj1 (proj2 (proj2 (proj2
            (control_round_trip (C.chr "X") _)))));
    vm_compute; split; discriminate.
Defined.

Lemma MIN_min (a b : Z) : MIN a b = Z.min a b.
Proof.
  unfold MIN, C.cond, C.gt. rewrite of_bool_truth, Z.gtb_ltb.
  destruct (Z.ltb_spec b a); lia.
Qed.

Lemma MAX_max (a b : Z) : MAX a b = Z.max a b.
Proof.
  unfold MAX, C.cond, C.lt. rewrite of_bool_truth.
  destruct (Z.ltb_spec a b); lia.
Qed.

Lemma digit_round_trip (X : Z) : I2D (D2I X) = X /\ D2I (I2D X) = X.
Proof. unfold I2D, D2I. lia. Qed.

(** At the type int, of 32 bits, ABS stays in range except at the least
    int, where -a is not an int. *)
Lemma ABS_int (a : Z) :
  - 2 ^ 31 < a < 2 ^ 31 -> 0 <= ABS a < 2 ^ 31.
Proof.
  unfold ABS, C.cond, C.lt. rewrite of_bool_truth.
  destruct (Z.ltb_spec a 0); lia.
Qed.

Remark ABS_least_int : ABS (- 2 ^ 31) = 2 ^ 31.
Proof. reflexivity. Qed.

(** C10: over the integers, SGN(a) * ABS(a) = a for every a. *)
Theorem SGN_ABS_product (a : Z) : SGN a * ABS a = a.
Proof.
  unfold SGN, ABS, C.cond, C.ne, C.lt. rewrite !of_bool_truth.
  destruct (Z.ltb_spec a 0), (Z.eqb_spec a 0); cbn [negb C.of_bool]; lia.
Qed.

End MacroTheorems.

(** ** More on h-config.h *)

(** The frame of a whole header, one directive at a time. *)
Ltac confined_step :=
  lazymatch goal with
  | |- confined _ (seq _ _) => apply confined_seq
  | |- confined _ (if_else _ _ _) => apply confined_if_else
  | |- confined _ skip => apply confined_skip
  | |- confined _ (include _) => apply confined_include
  | |- confined _ (define _ _) => apply confined_define; reflexivity
  | |- confined _ (undef _) => apply confined_undef; reflexivity
  end.

Ltac confined_all := cpp_unfold; repeat confined_step.

(** Reading a macro through a chain of #define and #undef. *)
Ltac read_chain :=
  repeat match goal with
  | |- context [value ?k (define ?n ?m ?s)] =>
      first [ constr_eq k n; rewrite (value_define_eq n m s)
            | rewrite (value_define_ne n k m s)
                by (apply String.eqb_neq; reflexivity) ]
  | |- context [value ?k (undef ?n ?s)] =>
      first [ constr_eq k n; rewrite (value_undef_eq n s)
            | rewrite (value_undef_ne n k s)
                by (apply String.eqb_neq; reflexivity) ]
  | |- context [value ?k (include ?h ?s)] => rewrite (value_include h k s)
  end.

Section ConfigGroups.

Implicit Types (s : cpp) (k : string) (m : macro).

Lemma In_mem k (L : list string) : In k L <-> mem k L = true.
Proof.
  unfold mem. rewrite existsb_exists. split.
  - intros H. exists k. split; [done | apply String.eqb_refl].
  - intros (x & Hx & E). apply String.eqb_eq in E. by subst.
Qed.

Lemma platform_classifier_value s :
  value "WINDOWS" (platform_classifier s)
  = if negb (defined "WINDOWS" s) && (defined "_WIN32" s || defined "WIN32" s)
    then Some (Obj Empty) else value "WINDOWS" s.
Proof.
  unfold platform_classifier, when, ifndef, if_else, skip.
  destruct (defined "_WIN32" s || defined "WIN32" s),
    (defined "WINDOWS" s); cbn [negb andb]; by read_chain.
Qed.

Lemma platform_classifier_events s :
  events "WINDOWS" (platform_classifier s)
  = events "WINDOWS" s
    ++ (if negb (defined "WINDOWS" s)
           && (defined "_WIN32" s || defined "WIN32" s)
        then [Ev_define "WINDOWS" (Obj Empty)] else []).
Proof.
  unfold platform_classifier, when, ifndef, if_else, skip.
  destruct (defined "_WIN32" s || defined "WIN32" s),
    (defined "WINDOWS" s); cbn [negb andb];
    rewrite ?app_nil_r; first [done | apply events_define_eq].
Qed.

Lemma file_type_value s k m :
  In (k, m) file_type_table ->
  value k (file_type s)
  = if defined "FILE_TYPE_TEXT" s then value k s else Some m.
Proof.
  unfold file_type_table. cbn [In].
  intros [H|[H|[H|[H|[]]]]]; injection H as <- <-;
    unfold file_type, ifndef, if_else, skip, seq;
    destruct (defined "FILE_TYPE_TEXT" s); by read_chain.
Qed.

Lemma h_config_body_confined :
  confined ["WINDOWS"; "SET_UID"; "PATH_SEP"; "FILE_TYPE_TEXT";
            "FILE_TYPE_DATA"; "FILE_TYPE_SAVE"; "FILE_TYPE"; "HAVE_USLEEP"]
    h_config_body.
Proof.
  unfold h_config_body, platform_classifier, multi_user, path_sep_default,
    path_sep_windows, file_type, have_usleep.
  confined_all.
Qed.

Lemma h_config_confined : confined h_config_names h_config.
Proof.
  unfold h_config, h_config_names, h_config_body, platform_classifier,
    multi_user, path_sep_default, path_sep_windows, file_type, have_usleep.
  confined_all.
Qed.

Lemma h_config_guard s : defined "INCLUDED_H_CONFIG_H" (h_config s) = true.
Proof.
  destruct (defined "INCLUDED_H_CONFIG_H" s) eqn:G.
  - by rewrite h_config_again.
  - rewrite h_config_first by done.
    rewrite (frame_defined _ _ _ _ h_config_body_confined) by reflexivity.
    apply defined_define_eq.
Qed.

Lemma silent_define k m : silent (define k m).
Proof. intros s. apply headers_define. Qed.

Lemma silent_undef k : silent (undef k).
Proof. intros s. apply headers_undef. Qed.

Lemma silent_skip : silent skip.
Proof. by intros s. Qed.

Lemma silent_seq (d1 d2 : directive) : silent d1 -> silent d2 -> silent (seq d1 d2).
Proof. intros H1 H2 s. unfold seq. by rewrite H2, H1. Qed.

Lemma silent_if_else c (d1 d2 : directive) :
  silent d1 -> silent d2 -> silent (if_else c d1 d2).
Proof. intros H1 H2 s. unfold if_else. destruct (c s); [apply H1 | apply H2]. Qed.

End ConfigGroups.

Ltac silent_step :=
  lazymatch goal with
  | |- silent (seq _ _) => apply silent_seq
  | |- silent (if_else _ _ _) => apply silent_if_else
  | |- silent skip => apply silent_skip
  | |- silent (define _ _) => apply silent_define
  | |- silent (undef _) => apply silent_undef
  end.

Ltac silent_all := cpp_unfold; repeat silent_step.

Section ConfigExtras.

Implicit Types (s : cpp) (k : string) (m : macro).

Lemma h_config_silent : silent h_config.
Proof.
  unfold h_config, h_config_body, platform_classifier, multi_user,
    path_sep_default, path_sep_windows, file_type, have_usleep.
  silent_all.
Qed.

Lemma h_config_body_windows_value s :
  value "WINDOWS" (h_config_body s)
  = if negb (defined "WINDOWS" s) && (defined "_WIN32" s || defined "WIN32" s)
    then Some (Obj Empty) else value "WINDOWS" s.
Proof.
  unfold h_config_body, seq. frame_config. apply platform_classifier_value.
Qed.

Lemma h_config_body_windows_events s :
  events "WINDOWS" (h_config_body s)
  = events "WINDOWS" s
    ++ (if negb (defined "WINDOWS" s)
           && (defined "_WIN32" s || defined "WIN32" s)
        then [Ev_define "WINDOWS" (Obj Empty)] else []).
Proof.
  unfold h_config_body, seq. frame_config. apply platform_classifier_events.
Qed.

Lemma h_config_body_file_type s k m :
  In (k, m) file_type_table ->
  value k (h_config_body s)
  = if defined "FILE_TYPE_TEXT" s then value k s else Some m.
Proof.
  intros Hin. unfold h_config_body, seq.
  assert (F : forall s0, value k (have_usleep s0) = value k s0).
  { intros s0. revert Hin. unfold file_type_table. cbn [In].
    intros [H|[H|[H|[H|[]]]]]; injection H as <- <-;
      by frame_with have_usleep_confined. }
  rewrite F, (file_type_value _ k m Hin). frame_config.
  revert Hin. unfold file_type_table. cbn [In].
  intros [H|[H|[H|[H|[]]]]]; injection H as <- <-; by frame_config.
Qed.

(** X1: h-config.h defines WINDOWS when it is not defined yet and _WIN32 or
    WIN32 is; a WINDOWS that is already defined keeps its replacement list,
    and the two signals are left as they are. *)
Theorem windows_flag_respects_preset s
    (Hguard : defined "INCLUDED_H_CONFIG_H" s = false) :
  (defined "WINDOWS" (h_config s) = true
   <-> defined "WINDOWS" s = true \/ defined "_WIN32" s = true
       \/ defined "WIN32" s = true)
  /\ (forall d, value "WINDOWS" s = Some d ->
                value "WINDOWS" (h_config s) = Some d)
  /\ events "WINDOWS" (h_config s)
     = events "WINDOWS" s
       ++ (if negb (defined "WINDOWS" s)
              && (defined "_WIN32" s || defined "WIN32" s)
           then [Ev_define "WINDOWS" (Obj Empty)] else [])
  /\ value "_WIN32" (h_config s) = value "_WIN32" s
  /\ value "WIN32" (h_config s) = value "WIN32" s.
Proof.
  rewrite h_config_first by done.
  split; [| split; [| split; [| split]]].
  - rewrite h_config_body_windows. repeat frame_with guard_config_confined.
    rewrite !orb_true_iff. tauto.
  - intros d Hd. rewrite h_config_body_windows_value.
    repeat frame_with guard_config_confined.
    assert (W : defined "WINDOWS" s = true) by (apply defined_true; eauto).
    by rewrite W.
  - rewrite h_config_body_windows_events.
    by repeat frame_with guard_config_confined.
  - rewrite (frame_value _ _ _ _ h_config_body_confined) by reflexivity.
    by frame_with guard_config_confined.
  - rewrite (frame_value _ _ _ _ h_config_body_confined) by reflexivity.
    by frame_with guard_config_confined.
Qed.

Lemma windows_flag_respects_preset_witness :
  value "WINDOWS"
    (h_config (start {[ "WINDOWS" := Obj (IntLit 95);
                        "_WIN32" := Obj (IntLit 1) ]}))
  = Some (Obj (IntLit 95)).
Proof.
  unshelve
  refine (proj1 (proj2 (windows_flag_respects_preset
                          (start {[ "WINDOWS" := Obj (IntLit 95);
                                    "_WIN32" := Obj (IntLit 1) ]}) _))
                (Obj (IntLit 95)) _); reflexivity.
Defined.

Lemma h_config_file_type s k m :
  defined "INCLUDED_H_CONFIG_H" s = false ->
  In (k, m) file_type_table ->
  value k (h_config s)
  = if defined "FILE_TYPE_TEXT" s then value k s else Some m.
Proof.
  intros G Hin. rewrite h_config_first by done.
  rewrite (h_config_body_file_type _ k m Hin).
  revert Hin. unfold file_type_table. cbn [In].
  intros [H|[H|[H|[H|[]]]]]; injection H as <- <-;
    by repeat frame_with guard_config_confined.
Qed.

Lemma h_config_file_type_kept s k m :
  defined "INCLUDED_H_CONFIG_H" s = false ->
  In (k, m) file_type_table ->
  defined k s = true -> defined k (h_config s) = true.
Proof.
  intros G Hin D. rewrite defined_value, (h_config_file_type s k m G Hin).
  destruct (defined "FILE_TYPE_TEXT" s).
  - by rewrite <- defined_value.
  - apply bool_decide_eq_true. eauto.
Qed.

(** X2: the FILE_TYPE group of h-config.h looks at FILE_TYPE_TEXT alone.
    When it is defined, FILE_TYPE_TEXT, FILE_TYPE_DATA, FILE_TYPE_SAVE and
    FILE_TYPE are left as they were, undefined ones included; when it is not,
    all four get the header's replacement list, whatever the other three
    were. *)
Theorem file_type_keyed_on_text s k m
    (Hguard : defined "INCLUDED_H_CONFIG_H" s = false)
    (Hin : In (k, m) file_type_table) :
  value k (h_config s)
  = (if defined "FILE_TYPE_TEXT" s then value k s else Some m)
  /\ (defined "FILE_TYPE_TEXT" s = true ->
      defined k (h_config s) = defined k s)
  /\ (defined "FILE_TYPE_TEXT" s = false -> defined k (h_config s) = true).
Proof.
  pose proof (h_config_file_type s k m Hguard Hin) as V.
  split; [exact V |]. split; intros F; rewrite F in V.
  - by rewrite !defined_value, V.
  - apply defined_true. rewrite V. eauto.
Qed.

Lemma file_type_keyed_on_text_witness :
  defined "FILE_TYPE"
    (h_config (start {[ "FILE_TYPE_TEXT" := Obj (Tokens "'TEXT'") ]}))
  = false
  /\ defined "FILE_TYPE" (h_config (start ∅)) = true.
Proof.
  unshelve
  refine (conj
            (eq_trans (proj1 (proj2 (file_type_keyed_on_text
               (start {[ "FILE_TYPE_TEXT" := Obj (Tokens "'TEXT'") ]})
               "FILE_TYPE" (Fun ["X"] Empty) _ _)) _) _)
            (proj2 (proj2 (file_type_keyed_on_text
               (start ∅) "FILE_TYPE" (Fun ["X"] Empty) _ _)) _));
    first [reflexivity | cbn; tauto].
Defined.

(** X4: h-config.h changes no macro outside its nine names, asks for no
    header, and leaves no macro undefined that was defined before it. *)
Theorem h_config_keeps_macros s k :
  (mem k h_config_names = false ->
   value k (h_config s) = value k s /\ events k (h_config s) = events k s)
  /\ (defined k s = true -> defined k (h_config s) = true)
  /\ headers (h_config s) = headers s.
Proof.
  split; [apply h_config_confined |]. split; [| apply h_config_silent].
  intros D. destruct (defined "INCLUDED_H_CONFIG_H" s) eqn:G;
    [by rewrite h_config_again |].
  destruct (mem k h_config_names) eqn:E;
    [| by rewrite (frame_defined _ _ _ _ h_config_confined)].
  apply In_mem in E. unfold h_config_names in E. cbn [In] in E.
  destruct E as [<-|[<-|[<-|[<-|[<-|[<-|[<-|[<-|[<-|[]]]]]]]]]].
  - apply h_config_guard.
  - rewrite h_config_first, h_config_body_windows by done.
    repeat frame_with guard_config_confined. by rewrite D.
  - rewrite h_config_first, h_config_body_set_uid by done.
    repeat frame_with guard_config_confined. rewrite D. apply orb_true_r.
  - apply defined_true. rewrite h_config_first, h_config_body_path_sep by done.
    eauto.
  - apply (h_config_file_type_kept s _ (Obj Empty)); cbn; tauto.
  - apply (h_config_file_type_kept s _ (Obj Empty)); cbn; tauto.
  - apply (h_config_file_type_kept s _ (Obj Empty)); cbn; tauto.
  - apply (h_config_file_type_kept s _ (Fun ["X"] Empty)); cbn; tauto.
  - rewrite h_config_first, h_config_body_usleep by done.
    repeat frame_with guard_config_confined. rewrite D. apply orb_true_r.
Qed.

End ConfigExtras.

(** ** More on h-system.h *)

Section SystemGroups.

Implicit Types (s : cpp) (k : string).

Lemma requested_app (d : directive) s l :
  headers (d s) = headers s ++ l -> requested d s = l.
Proof. intros H. unfold requested. rewrite H. apply drop_app_length. Qed.

Lemma defined_macros s1 s2 k :
  macros s1 = macros s2 -> defined k s1 = defined k s2.
Proof. intros H. unfold defined. by rewrite H. Qed.

Lemma multi_user_types_macros s : macros (multi_user_types s) = macros s.
Proof.
  unfold multi_user_types, ifdef, when, if_else, skip, seq.
  destruct (defined "SET_UID" s); [| done].
  by destruct (defined "__linux__" (include "sys/types.h" s)).
Qed.

Lemma io_macros s :
  macros (when (defined "WINDOWS") (include "io.h") s) = macros s.
Proof. unfold when, if_else, skip. by destruct (defined "WINDOWS" s). Qed.

Lemma posix_facilities_macros s : macros (posix_facilities s) = macros s.
Proof.
  unfold posix_facilities, ifdef, if_else, skip, seq.
  by destruct (defined "__linux__" _).
Qed.

Lemma demote_macros s :
  macros (demote s)
  = delete "SET_UID"
      (if defined "WINDOWS" s then macros s
       else <["WINDOWS" := Obj Empty]> (macros s)).
Proof.
  unfold demote, ifndef, if_else, skip, seq.
  by destruct (defined "WINDOWS" s).
Qed.

Lemma multi_user_facilities_macros s :
  macros (multi_user_facilities s)
  = if defined "SET_UID" s && defined "_MSC_VER" s
    then delete "SET_UID"
           (if defined "WINDOWS" s then macros s
            else <["WINDOWS" := Obj Empty]> (macros s))
    else macros s.
Proof.
  unfold multi_user_facilities, ifdef, ifndef_else, if_else, skip, seq.
  destruct (defined "SET_UID" s); [| done].
  destruct (defined "_MSC_VER" s); cbn [andb macros include].
  - apply demote_macros.
  - apply posix_facilities_macros.
Qed.

(** What h-system.h does to the macro table, in one formula. *)
Lemma h_system_body_macros s :
  macros (h_system_body s)
  = if defined "SET_UID" s && defined "_MSC_VER" s
    then delete "SET_UID"
           (if defined "WINDOWS" s then macros s
            else <["WINDOWS" := Obj Empty]> (macros s))
    else macros s.
Proof.
  unfold h_system_body, seq. cbn [macros include].
  rewrite multi_user_facilities_macros.
  set (s1 := include "fcntl.h" _).
  assert (E : macros s1 = macros s).
  { subst s1. cbn [macros include]. rewrite io_macros. cbn [macros include].
    by rewrite multi_user_types_macros. }
  by rewrite !(defined_macros s1 s _ E), E.
Qed.

Lemma h_system_body_confined : confined ["WINDOWS"; "SET_UID"] h_system_body.
Proof.
  unfold h_system_body, multi_user_types, multi_user_facilities,
    posix_facilities, demote.
  confined_all.
Qed.

Lemma h_system_confined : confined h_system_names h_system.
Proof.
  unfold h_system, h_system_names, h_system_body, multi_user_types,
    multi_user_facilities, posix_facilities, demote.
  confined_all.
Qed.

Lemma h_system_guard s : defined "INCLUDED_H_SYSTEM_H" (h_system s) = true.
Proof.
  destruct (defined "INCLUDED_H_SYSTEM_H" s) eqn:G.
  - by rewrite h_system_again.
  - rewrite h_system_first by done.
    rewrite (frame_defined _ _ _ _ h_system_body_confined) by reflexivity.
    apply defined_define_eq.
Qed.

Lemma multi_user_facilities_set_uid_events s :
  events "SET_UID" (multi_user_facilities s)
  = events "SET_UID" s
    ++ (if defined "SET_UID" s && defined "_MSC_VER" s
        then [Ev_undef "SET_UID"] else []).
Proof.
  unfold multi_user_facilities, ifdef, ifndef_else, if_else, skip, seq.
  destruct (defined "SET_UID" s); cbn [andb]; [| by rewrite app_nil_r].
  rewrite events_include. destruct (defined "_MSC_VER" s).
  - apply demote_set_uid_events.
  - rewrite (frame_events _ _ _ _ posix_facilities_confined) by reflexivity.
    by rewrite app_nil_r.
Qed.

Lemma h_system_body_set_uid_events s :
  events "SET_UID" (h_system_body s)
  = events "SET_UID" s
    ++ (if defined "SET_UID" s && defined "_MSC_VER" s
        then [Ev_undef "SET_UID"] else []).
Proof.
  unfold h_system_body, seq. repeat through_include.
  rewrite multi_user_facilities_set_uid_events. by frame_system.
Qed.

(** The headers h-system.h asks for when it is read. *)
Lemma h_system_headers s :
  defined "INCLUDED_H_SYSTEM_H" s = false ->
  requested h_system s
  = ["stdio.h"; "ctype.h"; "errno.h"; "stdlib.h"]
    ++ (if defined "SET_UID" s
        then ["sys/types.h"]
             ++ (if defined "__linux__" s then ["sys/time.h"] else [])
             ++ ["sys/timeb.h"]
        else [])
    ++ ["time.h"]
    ++ (if defined "WINDOWS" s then ["io.h"] else [])
    ++ ["memory.h"; "fcntl.h"]
    ++ (if defined "SET_UID" s
        then (if defined "_MSC_VER" s then []
              else ["sys/param.h"; "sys/file.h"]
                   ++ (if defined "__linux__" s then ["sys/file.h"] else [])
                   ++ ["pwd.h"; "unistd.h"])
             ++ ["sys/stat.h"]
        else [])
    ++ ["string.h"; "stdarg.h"].
Proof.
  intros G. apply requested_app. rewrite h_system_first by done.
  rewrite h_system_body_headers, headers_define.
  by repeat frame_with guard_system_confined.
Qed.

End SystemGroups.

(** Membership in a list of header names that is known, by computation. *)
Ltac decide_headers :=
  rewrite ?In_mem; vm_compute;
  repeat split; intros; try discriminate; try reflexivity;
  repeat match goal with
  | H : _ /\ _ |- _ => destruct H
  end; try discriminate.

Section SystemExtras.

Implicit Types (s : cpp) (k h : string).

(** X3: each of the three headers does its work once: read again, it
    changes nothing, neither the macros nor the trace, and h-system.h asks
    for no header the second time. *)
Theorem headers_read_once s :
  h_config (h_config s) = h_config s
  /\ h_define (h_define s) = h_define s
  /\ h_system (h_system s) = h_system s
  /\ requested h_system (h_system s) = [].
Proof.
  split; [apply h_config_again, h_config_guard |].
  split; [apply h_define_twice |].
  assert (E : h_system (h_system s) = h_system s)
    by apply h_system_again, h_system_guard.
  split; [exact E |]. unfold requested. rewrite E. apply drop_all.
Qed.

(** X5: h-system.h touches the flags of h-config.h only to demote.  When
    SET_UID or _MSC_VER is undefined on entry it leaves WINDOWS, SET_UID,
    PATH_SEP and HAVE_USLEEP as they are, and PATH_SEP and HAVE_USLEEP in
    every case.  It never defines SET_UID, and a WINDOWS defined before keeps
    its replacement list. *)
Theorem h_system_changes_flags_only_to_demote s k
    (Hk : In k ["WINDOWS"; "SET_UID"; "PATH_SEP"; "HAVE_USLEEP"]) :
  (defined "SET_UID" s && defined "_MSC_VER" s = false ->
   value k (h_system s) = value k s)
  /\ (k <> "WINDOWS" -> k <> "SET_UID" -> value k (h_system s) = value k s)
  /\ (defined "SET_UID" (h_system s) = true -> defined "SET_UID" s = true)
  /\ (defined "WINDOWS" s = true ->
      value "WINDOWS" (h_system s) = value "WINDOWS" s).
Proof.
  assert (Hg : k <> "INCLUDED_H_SYSTEM_H").
  { cbn [In] in Hk. destruct Hk as [<-|[<-|[<-|[<-|[]]]]]; discriminate. }
  clear Hk.
  destruct (defined "INCLUDED_H_SYSTEM_H" s) eqn:G;
    [by rewrite h_system_again |].
  rewrite h_system_first by done.
  set (s0 := define "INCLUDED_H_SYSTEM_H" (Obj Empty) s).
  assert (V : forall k', k' <> "INCLUDED_H_SYSTEM_H" -> value k' s0 = value k' s).
  { intros k' Hk'. subst s0. apply value_define_ne. congruence. }
  assert (D : forall k', k' <> "INCLUDED_H_SYSTEM_H" ->
                         defined k' s0 = defined k' s).
  { intros k' Hk'. by rewrite !defined_value, V. }
  split; [| split; [| split]].
  - intros N. unfold value at 1. rewrite h_system_body_macros.
    rewrite !D by discriminate. rewrite N. by apply V.
  - intros HW HU. unfold value at 1. rewrite h_system_body_macros.
    destruct (defined "SET_UID" s0 && defined "_MSC_VER" s0); [| by apply V].
    rewrite lookup_delete_ne by congruence.
    destruct (defined "WINDOWS" s0); [by apply V |].
    rewrite lookup_insert_ne by congruence. by apply V.
  - rewrite h_system_body_set_uid, !D by discriminate.
    by destruct (defined "SET_UID" s).
  - intros W. unfold value at 1. rewrite h_system_body_macros.
    rewrite !D by discriminate. rewrite W.
    destruct (defined "SET_UID" s && defined "_MSC_VER" s).
    + rewrite lookup_delete_ne by discriminate. by apply V.
    + by apply V.
Qed.

Lemma h_system_changes_flags_only_to_demote_witness :
  value "PATH_SEP" (h_system (h_config (start linux_build)))
  = value "PATH_SEP" (h_config (start linux_build)).
Proof.
  unshelve
  refine (proj1 (h_system_changes_flags_only_to_demote
                   (h_config (start linux_build)) "PATH_SEP" _) _);
    first [reflexivity | cbn; tauto].
Defined.

(** X6: h-system.h asks for sys/param.h, sys/file.h, pwd.h and unistd.h
    exactly when, on entry, SET_UID is defined and _MSC_VER is not. *)
Theorem posix_headers_requested s h
    (Hguard : defined "INCLUDED_H_SYSTEM_H" s = false)
    (Hh : In h posix_headers) :
  In h (requested h_system s)
  <-> defined "SET_UID" s = true /\ defined "_MSC_VER" s = false.
Proof.
  rewrite (h_system_headers s Hguard).
  unfold posix_headers in Hh. cbn [In] in Hh.
  destruct Hh as [<-|[<-|[<-|[<-|[]]]]];
    destruct (defined "SET_UID" s), (defined "__linux__" s),
      (defined "WINDOWS" s), (defined "_MSC_VER" s); decide_headers.
Qed.

Lemma posix_headers_requested_witness :
  In "pwd.h" (requested h_system (h_config (start linux_build)))
  /\ ~ In "pwd.h" (requested h_system (h_config (start msc_build))).
Proof.
  split.
  - unshelve
    refine (proj2 (posix_headers_requested
                     (h_config (start linux_build)) "pwd.h" _ _) _);
      first [reflexivity | cbn; tauto | split; reflexivity].
  - intros H.
    unshelve
    refine (let P := proj1 (posix_headers_requested
                              (h_config (start msc_build)) "pwd.h" _ _) H
            in _); first [reflexivity | cbn; tauto | idtac].
    destruct P as [_ P]. discriminate P.
Defined.

(** X7: h-system.h asks for sys/types.h, sys/timeb.h and sys/stat.h exactly
    when SET_UID is defined on entry, also when the header then undefines
    SET_UID, and for sys/time.h exactly when __linux__ is defined as
    well. *)
Theorem multi_user_headers_requested s h
    (Hguard : defined "INCLUDED_H_SYSTEM_H" s = false)
    (Hh : In h ["sys/types.h"; "sys/timeb.h"; "sys/stat.h"]) :
  (In h (requested h_system s) <-> defined "SET_UID" s = true)
  /\ (In "sys/time.h" (requested h_system s)
      <-> defined "SET_UID" s = true /\ defined "__linux__" s = true).
Proof.
  rewrite (h_system_headers s Hguard). cbn [In] in Hh.
  destruct Hh as [<-|[<-|[<-|[]]]];
    destruct (defined "SET_UID" s), (defined "__linux__" s),
      (defined "WINDOWS" s), (defined "_MSC_VER" s); decide_headers.
Qed.

Lemma multi_user_headers_requested_witness :
  In "sys/stat.h" (requested h_system (h_config (start msc_build)))
  /\ defined "SET_UID" (h_system (h_config (start msc_build))) = false.
Proof.
  split; [| reflexivity].
  unshelve
  refine (proj2 (proj1 (multi_user_headers_requested
                          (h_config (start msc_build)) "sys/stat.h" _ _)) _);
    first [reflexivity | cbn; tauto].
Defined.

(** X8: h-system.h asks for io.h exactly when WINDOWS is defined on entry.
    A build that gets WINDOWS from the demotion alone is therefore left
    without io.h, although WINDOWS is defined after the header. *)
Theorem io_header_reads_windows_on_entry s
    (Hguard : defined "INCLUDED_H_SYSTEM_H" s = false) :
  (In "io.h" (requested h_system s) <-> defined "WINDOWS" s = true)
  /\ (defined "WINDOWS" s = false -> defined "SET_UID" s = true ->
      defined "_MSC_VER" s = true ->
      defined "WINDOWS" (h_system s) = true
      /\ ~ In "io.h" (requested h_system s)).
Proof.
  assert (I : In "io.h" (requested h_system s) <-> defined "WINDOWS" s = true).
  { rewrite (h_system_headers s Hguard).
    destruct (defined "SET_UID" s), (defined "__linux__" s),
      (defined "WINDOWS" s), (defined "_MSC_VER" s); decide_headers. }
  split; [exact I |]. intros W U M. split.
  - rewrite h_system_first, h_system_body_windows by done.
    repeat frame_with guard_system_confined. rewrite U, M. apply orb_true_r.
  - rewrite I, W. discriminate.
Qed.

Lemma io_header_reads_windows_on_entry_witness :
  In "io.h" (requested h_system (h_config (start windows_build)))
  /\ ~ In "io.h" (requested h_system (h_config (start msc_build))).
Proof.
  split.
  - unshelve
    refine (proj2 (proj1 (io_header_reads_windows_on_entry
                            (h_config (start windows_build)) _)) _);
      reflexivity.
  - unshelve
    refine (proj2 (proj2 (io_header_reads_windows_on_entry
                            (h_config (start msc_build)) _) _ _ _));
      reflexivity.
Defined.

(** X9: whatever the flags, h-system.h asks for stdio.h, ctype.h, errno.h,
    stdlib.h, time.h, memory.h, fcntl.h, string.h and stdarg.h; the first
    four come first and the last two come last. *)
Theorem common_headers_always_requested s h
    (Hguard : defined "INCLUDED_H_SYSTEM_H" s = false)
    (Hh : In h common_headers) :
  In h (requested h_system s)
  /\ exists mid,
       requested h_system s
       = ["stdio.h"; "ctype.h"; "errno.h"; "stdlib.h"] ++ mid
         ++ ["string.h"; "stdarg.h"].
Proof.
  rewrite (h_system_headers s Hguard). split.
  - unfold common_headers in Hh. cbn [In] in Hh.
    destruct Hh as [<-|[<-|[<-|[<-|[<-|[<-|[<-|[<-|[<-|[]]]]]]]]]];
      destruct (defined "SET_UID" s), (defined "__linux__" s),
        (defined "WINDOWS" s), (defined "_MSC_VER" s); decide_headers.
  - exists ((if defined "SET_UID" s
             then ["sys/types.h"]
                  ++ (if defined "__linux__" s then ["sys/time.h"] else [])
                  ++ ["sys/timeb.h"]
             else [])
            ++ ["time.h"]
            ++ (if defined "WINDOWS" s then ["io.h"] else [])
            ++ ["memory.h"; "fcntl.h"]
            ++ (if defined "SET_UID" s
                then (if defined "_MSC_VER" s then []
                      else ["sys/param.h"; "sys/file.h"]
                           ++ (if defined "__linux__" s
                               then ["sys/file.h"] else [])
                           ++ ["pwd.h"; "unistd.h"])
                     ++ ["sys/stat.h"]
                else [])).
    by rewrite <- !app_assoc.
Qed.

Lemma common_headers_always_requested_witness :
  In "fcntl.h" (requested h_system (start windows_build)).
Proof.
  unshelve
  refine (proj1 (common_headers_always_requested
                   (start windows_build) "fcntl.h" _ _));
    first [reflexivity | cbn; tauto].
Defined.

(** X10: sys/file.h is asked for twice on a multi-user build under
    __linux__ with the POSIX headers, once on such a build without
    __linux__, and not at all otherwise; no other header is asked for more
    than once. *)
Theorem sys_file_requested_twice_on_linux s
    (Hguard : defined "INCLUDED_H_SYSTEM_H" s = false) :
  count_occ String.string_dec (requested h_system s) "sys/file.h"
  = (if defined "SET_UID" s && negb (defined "_MSC_VER" s)
     then if defined "__linux__" s then 2 else 1
     else 0)%nat
  /\ NoDup (List.filter (fun h => negb (String.eqb h "sys/file.h"))
              (requested h_system s)).
Proof.
  rewrite (h_system_headers s Hguard).
  destruct (defined "SET_UID" s), (defined "__linux__" s),
    (defined "WINDOWS" s), (defined "_MSC_VER" s);
    (split; [reflexivity |]);
    apply (bool_decide_unpack _); vm_compute; exact I.
Qed.

Lemma sys_file_requested_twice_on_linux_witness :
  count_occ String.string_dec
    (requested h_system (h_config (start linux_build))) "sys/file.h" = 2%nat.
Proof.
  unshelve
  refine (proj1 (sys_file_requested_twice_on_linux
                   (h_config (start linux_build)) _));
    reflexivity.
Defined.

End SystemExtras.

(** ** h-config.h, then h-system.h *)

Section Build.

Implicit Types (s : cpp).

Lemma requested_after_config s :
  requested (seq h_config h_system) s = requested h_system (h_config s).
Proof. unfold requested, seq. by rewrite h_config_silent. Qed.

Lemma config_keeps_system_flags s :
  defined "INCLUDED_H_SYSTEM_H" (h_config s) = defined "INCLUDED_H_SYSTEM_H" s
  /\ defined "__linux__" (h_config s) = defined "__linux__" s
  /\ defined "_MSC_VER" (h_config s) = defined "_MSC_VER" s.
Proof.
  repeat split;
    by rewrite (frame_defined _ _ _ _ h_config_confined) by reflexivity.
Qed.

Lemma config_windows s :
  defined "INCLUDED_H_CONFIG_H" s = false ->
  defined "WINDOWS" (h_config s)
  = defined "WINDOWS" s || defined "_WIN32" s || defined "WIN32" s.
Proof.
  intros G. rewrite h_config_first, h_config_body_windows by done.
  by repeat frame_with guard_config_confined.
Qed.

Lemma config_set_uid s :
  defined "INCLUDED_H_CONFIG_H" s = false ->
  defined "SET_UID" (h_config s)
  = negb (defined "WINDOWS" (h_config s)) || defined "SET_UID" s.
Proof.
  intros G. rewrite h_config_first, h_config_body_set_uid by done.
  by repeat frame_with guard_config_confined.
Qed.

Lemma config_set_uid_events s :
  defined "INCLUDED_H_CONFIG_H" s = false ->
  events "SET_UID" (h_config s)
  = events "SET_UID" s
    ++ (if defined "WINDOWS" (h_config s) then []
        else [Ev_define "SET_UID" (Obj Empty)]).
Proof.
  intros G. rewrite h_config_first, h_config_body_set_uid_events by done.
  by repeat frame_with guard_config_confined.
Qed.

Lemma config_path_sep s :
  defined "INCLUDED_H_CONFIG_H" s = false ->
  value "PATH_SEP" (h_config s)
  = Some (Obj (StrLit (if defined "WINDOWS" (h_config s) then "\" else "/"))).
Proof. intros G. rewrite h_config_first by done. apply h_config_body_path_sep. Qed.

Lemma config_usleep s :
  defined "INCLUDED_H_CONFIG_H" s = false ->
  defined "HAVE_USLEEP" (h_config s)
  = defined "SET_UID" (h_config s) && negb (defined "HAVE_CONFIG_H" s)
    || defined "HAVE_USLEEP" s.
Proof.
  intros G. rewrite h_config_first, h_config_body_usleep by done.
  by repeat frame_with guard_config_confined.
Qed.

Lemma system_set_uid s :
  defined "INCLUDED_H_SYSTEM_H" s = false ->
  defined "SET_UID" (h_system s)
  = defined "SET_UID" s && negb (defined "_MSC_VER" s).
Proof.
  intros G. rewrite h_system_first, h_system_body_set_uid by done.
  by repeat frame_with guard_system_confined.
Qed.

Lemma system_windows s :
  defined "INCLUDED_H_SYSTEM_H" s = false ->
  defined "WINDOWS" (h_system s)
  = defined "WINDOWS" s || defined "SET_UID" s && defined "_MSC_VER" s.
Proof.
  intros G. rewrite h_system_first, h_system_body_windows by done.
  by repeat frame_with guard_system_confined.
Qed.

Lemma system_set_uid_events s :
  defined "INCLUDED_H_SYSTEM_H" s = false ->
  events "SET_UID" (h_system s)
  = events "SET_UID" s
    ++ (if defined "SET_UID" s && defined "_MSC_VER" s
        then [Ev_undef "SET_UID"] else []).
Proof.
  intros G. rewrite h_system_first, h_system_body_set_uid_events by done.
  by repeat frame_with guard_system_confined.
Qed.

Lemma system_keeps_derived k s :
  mem k h_system_names = false -> defined k (h_system s) = defined k s.
Proof. apply frame_defined, h_system_confined. Qed.

(** X11: a build with no Windows signal and without _MSC_VER comes out of
    h-config.h and h-system.h as a multi-user build: SET_UID is defined and
    was defined once, WINDOWS is not, PATH_SEP is the slash, and the headers
    asked for are the common ones, those of a multi-user system and the POSIX
    ones, with sys/time.h and a second sys/file.h under __linux__, and
    without io.h. *)
Theorem unix_build_resolution s
    (Gc : defined "INCLUDED_H_CONFIG_H" s = false)
    (Gs : defined "INCLUDED_H_SYSTEM_H" s = false)
    (W : defined "WINDOWS" s = false)
    (W1 : defined "_WIN32" s = false)
    (W2 : defined "WIN32" s = false)
    (M : defined "_MSC_VER" s = false) :
  defined "SET_UID" (h_system (h_config s)) = true
  /\ defined "WINDOWS" (h_system (h_config s)) = false
  /\ value "PATH_SEP" (h_system (h_config s)) = Some (Obj (StrLit "/"))
  /\ requested (seq h_config h_system) s
     = ["stdio.h"; "ctype.h"; "errno.h"; "stdlib.h"; "sys/types.h"]
       ++ (if defined "__linux__" s then ["sys/time.h"] else [])
       ++ ["sys/timeb.h"; "time.h"; "memory.h"; "fcntl.h";
           "sys/param.h"; "sys/file.h"]
       ++ (if defined "__linux__" s then ["sys/file.h"] else [])
       ++ ["pwd.h"; "unistd.h"; "sys/stat.h"; "string.h"; "stdarg.h"].
Proof.
  destruct (config_keeps_system_flags s) as (Gs' & L' & M').
  rewrite Gs in Gs'. rewrite M in M'.
  pose proof (config_windows s Gc) as W'. rewrite W, W1, W2 in W'.
  pose proof (config_set_uid s Gc) as U'. rewrite W' in U'. cbn in U'.
  split; [by rewrite system_set_uid, U', M' |].
  split; [by rewrite system_windows, W', U', M' |].
  split.
  - rewrite (frame_value _ _ _ _ h_system_confined) by reflexivity.
    by rewrite config_path_sep, W'.
  - rewrite requested_after_config, h_system_headers by done.
    rewrite U', W', M', L'. by destruct (defined "__linux__" s).
Qed.

Lemma unix_build_resolution_witness :
  defined "SET_UID" (h_system (h_config (start linux_build))) = true
  /\ requested (seq h_config h_system) (start linux_build)
     = ["stdio.h"; "ctype.h"; "errno.h"; "stdlib.h"; "sys/types.h";
        "sys/time.h"; "sys/timeb.h"; "time.h"; "memory.h"; "fcntl.h";
        "sys/param.h"; "sys/file.h"; "sys/file.h"; "pwd.h"; "unistd.h";
        "sys/stat.h"; "string.h"; "stdarg.h"].
Proof.
  unshelve
  refine (let H := unix_build_resolution (start linux_build) _ _ _ _ _ _ in
          conj (proj1 H) (proj2 (proj2 (proj2 H)))); reflexivity.
Defined.

(** X12: a build with a Windows signal that does not bring SET_UID comes out
    of h-config.h and h-system.h with WINDOWS defined, SET_UID undefined
    and never defined, PATH_SEP the backslash, and the common headers with
    io.h and nothing else asked for; h-system.h leaves WINDOWS, SET_UID,
    PATH_SEP and HAVE_USLEEP as h-config.h set them. *)
Theorem windows_build_resolution s
    (Gc : defined "INCLUDED_H_CONFIG_H" s = false)
    (Gs : defined "INCLUDED_H_SYSTEM_H" s = false)
    (U : defined "SET_UID" s = false)
    (W : defined "WINDOWS" s || defined "_WIN32" s || defined "WIN32" s
         = true) :
  defined "WINDOWS" (h_system (h_config s)) = true
  /\ defined "SET_UID" (h_system (h_config s)) = false
  /\ events "SET_UID" (h_system (h_config s)) = events "SET_UID" s
  /\ value "PATH_SEP" (h_system (h_config s)) = Some (Obj (StrLit "\"))
  /\ requested (seq h_config h_system) s
     = ["stdio.h"; "ctype.h"; "errno.h"; "stdlib.h"; "time.h"; "io.h";
        "memory.h"; "fcntl.h"; "string.h"; "stdarg.h"]
  /\ (forall k, In k ["WINDOWS"; "SET_UID"; "PATH_SEP"; "HAVE_USLEEP"] ->
        value k (h_system (h_config s)) = value k (h_config s)).
Proof.
  destruct (config_keeps_system_flags s) as (Gs' & L' & M').
  rewrite Gs in Gs'.
  pose proof (config_windows s Gc) as W'. rewrite W in W'.
  pose proof (config_set_uid s Gc) as U'. rewrite W', U in U'. cbn in U'.
  split; [by rewrite system_windows, W' |].
  split; [by rewrite system_set_uid, U' |].
  split; [| split; [| split]].
  - rewrite system_set_uid_events, U' by done. cbn [andb].
    by rewrite config_set_uid_events, W', !app_nil_r.
  - rewrite (frame_value _ _ _ _ h_system_confined) by reflexivity.
    by rewrite config_path_sep, W'.
  - rewrite requested_after_config, h_system_headers by done.
    by rewrite U', W'.
  - intros k Hin.
    assert (Hk : k <> "INCLUDED_H_SYSTEM_H").
    { cbn [In] in Hin. destruct Hin as [<-|[<-|[<-|[<-|[]]]]]; discriminate. }
    unfold value. rewrite h_system_first by done.
    rewrite h_system_body_macros.
    rewrite (frame_defined _ _ _ _ guard_system_confined) by reflexivity.
    rewrite U'. cbn [andb define macros].
    apply lookup_insert_ne. congruence.
Qed.

Lemma windows_build_resolution_witness :
  value "PATH_SEP" (h_system (h_config (start windows_build)))
  = Some (Obj (StrLit "\"))
  /\ requested (seq h_config h_system) (start windows_build)
     = ["stdio.h"; "ctype.h"; "errno.h"; "stdlib.h"; "time.h"; "io.h";
        "memory.h"; "fcntl.h"; "string.h"; "stdarg.h"].
Proof.
  unshelve
  refine (let H := windows_build_resolution (start windows_build) _ _ _ _ in
          conj (proj1 (proj2 (proj2 (proj2 H))))
               (proj1 (proj2 (proj2 (proj2 (proj2 H))))));
    reflexivity.
Defined.

(** X13: in a build that does not bring SET_UID, after h-config.h and
    h-system.h SET_UID is defined exactly when there is neither a Windows
    signal nor _MSC_VER, and WINDOWS exactly when there is one of them; the
    two headers undefine SET_UID, after defining it, exactly when _MSC_VER
    comes without a Windows signal. *)
Theorem final_flags s
    (Gc : defined "INCLUDED_H_CONFIG_H" s = false)
    (Gs : defined "INCLUDED_H_SYSTEM_H" s = false)
    (U : defined "SET_UID" s = false) :
  defined "SET_UID" (h_system (h_config s))
  = negb (defined "WINDOWS" s || defined "_WIN32" s || defined "WIN32" s)
    && negb (defined "_MSC_VER" s)
  /\ defined "WINDOWS" (h_system (h_config s))
     = defined "WINDOWS" s || defined "_WIN32" s || defined "WIN32" s
       || defined "_MSC_VER" s
  /\ events "SET_UID" (h_system (h_config s))
     = events "SET_UID" s
       ++ (if defined "WINDOWS" s || defined "_WIN32" s || defined "WIN32" s
           then []
           else Ev_define "SET_UID" (Obj Empty)
                :: (if defined "_MSC_VER" s then [Ev_undef "SET_UID"]
                    else [])).
Proof.
  destruct (config_keeps_system_flags s) as (Gs' & L' & M').
  rewrite Gs in Gs'.
  pose proof (config_windows s Gc) as W'.
  pose proof (config_set_uid s Gc) as U'. rewrite W', U in U'.
  rewrite orb_false_r in U'.
  split; [by rewrite system_set_uid, U', M' |].
  split.
  - rewrite system_windows, U', W', M' by done.
    by destruct (defined "WINDOWS" s || defined "_WIN32" s || defined "WIN32" s),
      (defined "_MSC_VER" s).
  - rewrite system_set_uid_events, config_set_uid_events, U', W', M' by done.
    destruct (defined "WINDOWS" s || defined "_WIN32" s || defined "WIN32" s),
      (defined "_MSC_VER" s); cbn [negb andb];
      by rewrite <- ?app_assoc, ?app_nil_r.
Qed.

Lemma final_flags_witness :
  defined "SET_UID" (h_system (h_config (start msc_build))) = false
  /\ defined "WINDOWS" (h_system (h_config (start msc_build))) = true.
Proof.
  unshelve
  refine (let H := final_flags (start msc_build) _ _ _ in
          conj (eq_trans (proj1 H) _) (eq_trans (proj1 (proj2 H)) _));
    reflexivity.
Defined.

(** X14: the demotion does not go back over what h-config.h derived.  In a
    build with _MSC_VER, no Windows signal and no SET_UID or HAVE_USLEEP of
    its own, after the two headers WINDOWS is defined and SET_UID is not,
    yet PATH_SEP is still the slash and HAVE_USLEEP is still defined unless
    HAVE_CONFIG_H is. *)
Theorem demotion_leaves_path_sep_and_usleep s
    (Gc : defined "INCLUDED_H_CONFIG_H" s = false)
    (Gs : defined "INCLUDED_H_SYSTEM_H" s = false)
    (U : defined "SET_UID" s = false)
    (Hus : defined "HAVE_USLEEP" s = false)
    (W : defined "WINDOWS" s || defined "_WIN32" s || defined "WIN32" s
         = false)
    (M : defined "_MSC_VER" s = true) :
  defined "WINDOWS" (h_system (h_config s)) = true
  /\ defined "SET_UID" (h_system (h_config s)) = false
  /\ value "PATH_SEP" (h_system (h_config s)) = Some (Obj (StrLit "/"))
  /\ defined "HAVE_USLEEP" (h_system (h_config s))
     = negb (defined "HAVE_CONFIG_H" s).
Proof.
  destruct (config_keeps_system_flags s) as (Gs' & L' & M').
  rewrite Gs in Gs'. rewrite M in M'.
  pose proof (config_windows s Gc) as W'. rewrite W in W'.
  pose proof (config_set_uid s Gc) as U'. rewrite W', U in U'. cbn in U'.
  split; [rewrite system_windows, U', M' by done; apply orb_true_r |].
  split; [by rewrite system_set_uid, U', M' |].
  split.
  - rewrite (frame_value _ _ _ _ h_system_confined) by reflexivity.
    by rewrite config_path_sep, W'.
  - rewrite system_keeps_derived by reflexivity.
    rewrite config_usleep, U', Hus by done. cbn [andb]. apply orb_false_r.
Qed.

Lemma demotion_leaves_path_sep_and_usleep_witness :
  defined "WINDOWS" (h_system (h_config (start msc_build))) = true
  /\ value "PATH_SEP" (h_system (h_config (start msc_build)))
     = Some (Obj (StrLit "/"))
  /\ defined "HAVE_USLEEP" (h_system (h_config (start msc_build))) = true.
Proof.
  unshelve
  refine (let H := demotion_leaves_path_sep_and_usleep
                     (start msc_build) _ _ _ _ _ _ in
          conj (proj1 H)
            (conj (proj1 (proj2 (proj2 H)))
                  (eq_trans (proj2 (proj2 (proj2 H))) _)));
    reflexivity.
Defined.

End Build.

(** ** More on h-define.h *)

Section DefineGroups.

Implicit Types (s : cpp) (k n : string) (m : macro).

Lemma events_define_ne n k m s :
  n <> k -> events k (define n m s) = events k s.
Proof.
  intros H. apply (frame_events _ [n]).
  - apply confined_define. cbn. by rewrite String.eqb_refl.
  - cbn. apply String.eqb_neq in H. rewrite String.eqb_sym, H. reflexivity.
Qed.

Lemma events_undef_ne n k s : n <> k -> events k (undef n s) = events k s.
Proof.
  intros H. apply (frame_events _ [n]).
  - apply confined_undef. cbn. by rewrite String.eqb_refl.
  - cbn. apply String.eqb_neq in H. rewrite String.eqb_sym, H. reflexivity.
Qed.

End DefineGroups.

(** The events on a macro through a chain of #define and #undef. *)
Ltac read_events :=
  repeat match goal with
  | |- context [events ?k (define ?n ?m ?s)] =>
      first [ constr_eq k n; rewrite (events_define_eq n m s)
            | rewrite (events_define_ne n k m s)
                by (apply String.eqb_neq; reflexivity) ]
  | |- context [events ?k (undef ?n ?s)] =>
      first [ constr_eq k n; rewrite (events_undef_eq n s)
            | rewrite (events_undef_ne n k s)
                by (apply String.eqb_neq; reflexivity) ]
  | |- context [events ?k (include ?h ?s)] => rewrite (events_include h k s)
  end.

(** Reading a macro of h-define.h after the header's body. *)
Ltac through_define_body :=
  unfold h_define_body, fallback_constants, seek_constants, lock_constants,
    seq;
  frame_define;
  unfold null_constant, boolean_constants, numeric_macros, character_macros,
    redefine, seq;
  repeat progress (frame_define; read_chain; read_events).

Section DefineExtras.

Implicit Types (s : cpp) (k n : string) (m : macro).

Lemma h_define_confined : confined h_define_names h_define.
Proof.
  unfold h_define, h_define_names, h_define_body, null_constant,
    fallback_constants, seek_constants, lock_constants, boolean_constants,
    numeric_macros, character_macros, fallthrough, define_if_absent, redefine.
  confined_all.
Qed.

Lemma h_define_silent : silent h_define.
Proof.
  unfold h_define, h_define_body, null_constant,
    fallback_constants, seek_constants, lock_constants, boolean_constants,
    numeric_macros, character_macros, fallthrough, define_if_absent, redefine.
  silent_all.
Qed.

Lemma h_define_forced s k m :
  defined "INCLUDED_H_DEFINE_H" s = false ->
  In (k, m) forced_table ->
  value k (h_define s) = Some m
  /\ events k (h_define s) = events k s ++ [Ev_undef k; Ev_define k m].
Proof.
  intros G Hin. rewrite h_define_first by done.
  unfold forced_table in Hin. cbn [In] in Hin.
  destruct Hin as [H|[H|[H|[H|[H|[H|[H|[]]]]]]]]; injection H as <- <-;
    (split; through_define_body; by rewrite <- ?app_assoc).
Qed.

Lemma h_define_null s :
  defined "INCLUDED_H_DEFINE_H" s = false ->
  value "NULL" (h_define s)
  = Some (default (Obj (Tokens "((void*)0)")) (value "NULL" s)).
Proof. intros G. rewrite h_define_first by done. by through_define_body. Qed.

Lemma h_define_fallthrough s :
  defined "INCLUDED_H_DEFINE_H" s = false ->
  value "FALLTHROUGH" (h_define s)
  = Some (Obj (if defined "__GNUC__" s
               then Tokens "__attribute__((fallthrough))" else Empty)).
Proof.
  intros G. rewrite h_define_first by done.
  unfold h_define_body, seq, fallthrough, ifdef_else, if_else.
  set (s1 := character_macros _).
  assert (E : defined "__GNUC__" s1 = defined "__GNUC__" s).
  { subst s1.
    unfold fallback_constants, seek_constants, lock_constants, seq.
    by frame_define. }
  rewrite E. destruct (defined "__GNUC__" s); apply value_define_eq.
Qed.

Lemma h_define_character s k :
  defined "INCLUDED_H_DEFINE_H" s = false ->
  In k ["A2I"; "I2A"; "D2I"; "I2D"; "KTRL"; "UN_KTRL"; "ESCAPE"] ->
  defined k (h_define s) = true.
Proof.
  intros G Hin. apply defined_true. rewrite h_define_first by done.
  cbn [In] in Hin.
  destruct Hin as [<-|[<-|[<-|[<-|[<-|[<-|[<-|[]]]]]]]];
    through_define_body; eauto.
Qed.

Lemma h_define_body_confined :
  confined ["NULL"; "SEEK_SET"; "SEEK_CUR"; "SEEK_END"; "F_UNLCK"; "F_RDLCK";
            "F_WRLCK"; "TRUE"; "FALSE"; "MIN"; "MAX"; "ABS"; "SGN"; "ORDERED";
            "A2I"; "I2A"; "D2I"; "I2D"; "KTRL"; "UN_KTRL"; "ESCAPE";
            "FALLTHROUGH"]
    h_define_body.
Proof.
  unfold h_define_body, null_constant,
    fallback_constants, seek_constants, lock_constants, boolean_constants,
    numeric_macros, character_macros, fallthrough, define_if_absent, redefine.
  confined_all.
Qed.

Lemma h_define_guard s : defined "INCLUDED_H_DEFINE_H" (h_define s) = true.
Proof.
  destruct (defined "INCLUDED_H_DEFINE_H" s) eqn:G.
  - by rewrite h_define_again.
  - rewrite h_define_first by done.
    rewrite (frame_defined _ _ _ _ h_define_body_confined) by reflexivity.
    apply defined_define_eq.
Qed.

Lemma h_define_fallback s n v :
  defined "INCLUDED_H_DEFINE_H" s = false ->
  In (n, v) fallback_table ->
  defined n (h_define s) = true.
Proof.
  intros G Hin. apply defined_true. rewrite h_define_first by done.
  rewrite (h_define_body_value _ n v Hin), (fallback_constants_value _ n v Hin).
  eauto.
Qed.

Lemma h_define_names_defined s k :
  defined "INCLUDED_H_DEFINE_H" s = false ->
  In k h_define_names -> defined k (h_define s) = true.
Proof.
  intros G Hin. unfold h_define_names in Hin. cbn [In] in Hin.
  destruct Hin as
    [<-|[<-|[<-|[<-|[<-|[<-|[<-|[<-|[<-|[<-|[<-|[<-|[<-|[<-|[<-|[<-|[<-|[<-|
     [<-|[<-|[<-|[<-|[<-|[]]]]]]]]]]]]]]]]]]]]]]]].
  - apply h_define_guard.
  - apply defined_true. rewrite h_define_null by done. eauto.
  - apply (h_define_fallback s _ 0 G). cbn. tauto.
  - apply (h_define_fallback s _ 1 G). cbn. tauto.
  - apply (h_define_fallback s _ 2 G). cbn. tauto.
  - apply (h_define_fallback s _ 0 G). cbn. tauto.
  - apply (h_define_fallback s _ 1 G). cbn. tauto.
  - apply (h_define_fallback s _ 2 G). cbn. tauto.
  - apply defined_true. eexists.
    apply (h_define_forced s _ _ G). cbn. tauto.
  - apply defined_true. eexists.
    apply (h_define_forced s _ _ G). cbn. tauto.
  - apply defined_true. eexists.
    apply (h_define_forced s _ _ G). cbn. tauto.
  - apply defined_true. eexists.
    apply (h_define_forced s _ _ G). cbn. tauto.
  - apply defined_true. eexists.
    apply (h_define_forced s _ _ G). cbn. tauto.
  - apply defined_true. eexists.
    apply (h_define_forced s _ _ G). cbn. tauto.
  - apply defined_true. eexists.
    apply (h_define_forced s _ _ G). cbn. tauto.
  - apply (h_define_character s _ G). cbn. tauto.
  - apply (h_define_character s _ G). cbn. tauto.
  - apply (h_define_character s _ G). cbn. tauto.
  - apply (h_define_character s _ G). cbn. tauto.
  - apply (h_define_character s _ G). cbn. tauto.
  - apply (h_define_character s _ G). cbn. tauto.
  - apply (h_define_character s _ G). cbn. tauto.
  - apply defined_true. rewrite h_define_fallthrough by done. eauto.
Qed.

(** X15: h-define.h gives TRUE, FALSE, MIN, MAX, ABS, SGN and ORDERED its
    own definition whatever they were before, by undefining each and then
    defining it; NULL, like the fallback constants, keeps a definition it
    already has. *)
Theorem forced_definitions_override s k m
    (Hguard : defined "INCLUDED_H_DEFINE_H" s = false)
    (Hin : In (k, m) forced_table) :
  value k (h_define s) = Some m
  /\ events k (h_define s) = events k s ++ [Ev_undef k; Ev_define k m]
  /\ value "NULL" (h_define s)
     = Some (default (Obj (Tokens "((void*)0)")) (value "NULL" s)).
Proof.
  destruct (h_define_forced s k m Hguard Hin) as [V E].
  split; [exact V |]. split; [exact E |]. by apply h_define_null.
Qed.

Lemma forced_definitions_override_witness :
  value "TRUE"
    (h_define (start {[ "TRUE" := Obj (IntLit 255);
                        "NULL" := Obj (IntLit 0) ]}))
  = Some (Obj (IntLit 1))
  /\ value "NULL"
       (h_define (start {[ "TRUE" := Obj (IntLit 255);
                           "NULL" := Obj (IntLit 0) ]}))
     = Some (Obj (IntLit 0)).
Proof.
  unshelve
  refine (let H := forced_definitions_override
                     (start {[ "TRUE" := Obj (IntLit 255);
                               "NULL" := Obj (IntLit 0) ]})
                     "TRUE" (Obj (IntLit 1)) _ _ in
          conj (proj1 H) (proj2 (proj2 H)));
    first [reflexivity | cbn; tauto].
Defined.

(** X16: after h-define.h FALLTHROUGH is defined in every build: as the
    fallthrough attribute when __GNUC__ is defined, and with an empty
    replacement list when it is not; __GNUC__ itself is left alone. *)
Theorem fallthrough_follows_gnuc s
    (Hguard : defined "INCLUDED_H_DEFINE_H" s = false) :
  value "FALLTHROUGH" (h_define s)
  = Some (Obj (if defined "__GNUC__" s
               then Tokens "__attribute__((fallthrough))" else Empty))
  /\ defined "FALLTHROUGH" (h_define s) = true
  /\ value "__GNUC__" (h_define s) = value "__GNUC__" s.
Proof.
  pose proof (h_define_fallthrough s Hguard) as V.
  split; [exact V |]. split.
  - apply defined_true. rewrite V. eauto.
  - by rewrite (frame_value _ _ _ _ h_define_confined).
Qed.

Lemma fallthrough_follows_gnuc_witness :
  value "FALLTHROUGH" (h_define (start linux_build))
  = Some (Obj (Tokens "__attribute__((fallthrough))"))
  /\ value "FALLTHROUGH" (h_define (start windows_build)) = Some (Obj Empty).
Proof.
  unshelve
  refine (conj (proj1 (fallthrough_follows_gnuc (start linux_build) _))
               (proj1 (fallthrough_follows_gnuc (start windows_build) _)));
    reflexivity.
Defined.

(** X17: h-define.h changes no macro outside its twenty-three names and asks
    for no header; read for the first time it leaves every one of the
    twenty-three defined, and no macro that was defined before it is
    undefined after it. *)
Theorem h_define_defines_its_names s k :
  (mem k h_define_names = false ->
   value k (h_define s) = value k s /\ events k (h_define s) = events k s)
  /\ (defined "INCLUDED_H_DEFINE_H" s = false -> In k h_define_names ->
      defined k (h_define s) = true)
  /\ (defined k s = true -> defined k (h_define s) = true)
  /\ headers (h_define s) = headers s.
Proof.
  split; [apply h_define_confined |].
  split; [apply h_define_names_defined |].
  split; [| apply h_define_silent].
  intros D. destruct (defined "INCLUDED_H_DEFINE_H" s) eqn:G;
    [by rewrite h_define_again |].
  destruct (mem k h_define_names) eqn:E.
  - apply h_define_names_defined; [done | by apply In_mem].
  - by rewrite (frame_defined _ _ _ _ h_define_confined).
Qed.

Lemma h_define_defines_its_names_witness :
  defined "ORDERED" (h_define (start ∅)) = true
  /\ value "PATH_SEP" (h_define (h_config (start ∅)))
     = value "PATH_SEP" (h_config (start ∅)).
Proof.
  unshelve
  refine (conj
    (proj1 (proj2 (h_define_defines_its_names (start ∅) "ORDERED")) _ _)
    (proj1 (proj1 (h_define_defines_its_names
                     (h_config (start ∅)) "PATH_SEP") _)));
    first [reflexivity | apply In_mem; reflexivity].
Defined.

End DefineExtras.

(** ** More on the macros of h-define.h *)

Section MacroExtras.

Import Macros.

Lemma ABS_abs (a : Z) : ABS a = Z.abs a.
Proof.
  unfold ABS, C.cond, C.lt. rewrite of_bool_truth.
  destruct (Z.ltb_spec a 0); lia.
Qed.

Lemma SGN_sgn (a : Z) : SGN a = Z.sgn a.
Proof.
  unfold SGN, C.cond, C.ne, C.lt. rewrite !of_bool_truth.
  destruct (Z.ltb_spec a 0), (Z.eqb_spec a 0); cbn [negb C.of_bool]; lia.
Qed.

Lemma ORDERED_one (a b c : Z) :
  ORDERED a b c = 1 <-> a <= b <= c \/ c <= b <= a.
Proof.
  rewrite <- ORDERED_truth. unfold ORDERED, C.or.
  by destruct (_ || _).
Qed.

(** X18: MIN and MAX pick one of their two arguments, the lesser and the
    greater: they are the minimum and the maximum of the integers, MIN is
    the greatest lower bound and MAX the least upper bound of the pair, and
    together they return the pair. *)
Theorem MIN_MAX_select (a b : Z) :
  MIN a b = Z.min a b /\ MAX a b = Z.max a b
  /\ (MIN a b = a /\ MAX a b = b \/ MIN a b = b /\ MAX a b = a)
  /\ MIN a b <= MAX a b
  /\ MIN a b + MAX a b = a + b
  /\ (forall c, c <= MIN a b <-> c <= a /\ c <= b)
  /\ (forall c, MAX a b <= c <-> a <= c /\ b <= c).
Proof. rewrite MIN_min, MAX_max. repeat split; intros; lia. Qed.

(** X19: ORDERED(a, b, c) holds exactly when b lies between MIN(a, c) and
    MAX(a, c); it does not depend on the order of its outer arguments, it
    holds when b is one of them, and between equal bounds only for that
    value. *)
Theorem ORDERED_MIN_MAX (a b c : Z) :
  (ORDERED a b c = 1 <-> MIN a c <= b <= MAX a c)
  /\ ORDERED a b c = ORDERED c b a
  /\ ORDERED a a c = 1 /\ ORDERED a c c = 1
  /\ (ORDERED a b a = 1 <-> b = a).
Proof.
  rewrite !ORDERED_one, MIN_min, MAX_max.
  repeat split; intros; try lia.
  assert (E : forall x y z, ORDERED x y z = 1 \/ ORDERED x y z = 0).
  { intros x y z. unfold ORDERED, C.or. destruct (_ || _); auto. }
  pose proof (ORDERED_one a b c). pose proof (ORDERED_one c b a).
  destruct (E a b c), (E c b a); lia.
Qed.

(** X20: on ints other than the least int, whose product is such an int
    too, ABS is the absolute value and SGN the sign: ABS is an int that is
    never negative, is 0 only at 0, is MAX(a, -a), does not see the sign of
    its argument and is multiplicative; SGN changes sign with its argument
    and is multiplicative.  Every negation and product taken on the way is
    an int. *)
Theorem ABS_SGN_algebra (a b : Z)
    (Ha : - 2 ^ 31 < a < 2 ^ 31) (Hb : - 2 ^ 31 < b < 2 ^ 31)
    (Hab : - 2 ^ 31 < a * b < 2 ^ 31) :
  ABS a = Z.abs a /\ SGN a = Z.sgn a
  /\ 0 <= ABS a < 2 ^ 31 /\ (ABS a = 0 <-> a = 0)
  /\ ABS a = MAX a (- a)
  /\ ABS (- a) = ABS a /\ SGN (- a) = - SGN a
  /\ ABS (a * b) = ABS a * ABS b /\ SGN (a * b) = SGN a * SGN b
  /\ - 2 ^ 31 < - a < 2 ^ 31 /\ 0 <= ABS a * ABS b < 2 ^ 31.
Proof.
  rewrite !ABS_abs, !SGN_sgn, MAX_max.
  repeat split; lia.
Qed.

Lemma ABS_SGN_algebra_witness :
  ABS (-6 * 7) = ABS (-6) * ABS 7 /\ SGN (-6 * 7) = SGN (-6) * SGN 7.
Proof.
  unshelve
  refine (let H := ABS_SGN_algebra (-6) 7 _ _ _ in
          conj (proj1 (proj2 (proj2 (proj2 (proj2 (proj2 (proj2 (proj2 H))))))))
               (proj1 (proj2 (proj2 (proj2 (proj2 (proj2 (proj2 (proj2 (proj2 H))))))))));
    lia.
Defined.

(** X21: at the 32-bit type int, MIN, MAX and SGN of ints are ints, and so
    is ABS(a) unless a is the least int, where it is 2^31. *)
Theorem int_range_of_macros (a b : Z)
    (Ha : - 2 ^ 31 <= a < 2 ^ 31) (Hb : - 2 ^ 31 <= b < 2 ^ 31) :
  - 2 ^ 31 <= MIN a b < 2 ^ 31
  /\ - 2 ^ 31 <= MAX a b < 2 ^ 31
  /\ - 1 <= SGN a <= 1
  /\ (ABS a < 2 ^ 31 <-> a <> - 2 ^ 31)
  /\ (a = - 2 ^ 31 -> ABS a = 2 ^ 31).
Proof. rewrite MIN_min, MAX_max, SGN_sgn, ABS_abs. lia. Qed.

Lemma int_range_of_macros_witness :
  ABS (- 2 ^ 31) = 2 ^ 31 /\ ABS (- 2 ^ 31 + 1) < 2 ^ 31.
Proof.
  unshelve
  refine (conj
    (proj2 (proj2 (proj2 (proj2
       (int_range_of_macros (- 2 ^ 31) 0 _ _)))) _)
    (proj2 (proj1 (proj2 (proj2 (proj2
       (int_range_of_macros (- 2 ^ 31 + 1) 0 _ _))))) _));
    first [reflexivity | lia].
Defined.

(** X22: D2I and I2D are inverse to each other between the ten digit
    characters and the numbers 0 to 9. *)
Theorem digit_index_round_trip (x i : Z)
    (Hx : C.chr "0" <= x <= C.chr "9") (Hi : 0 <= i <= 9) :
  I2D (D2I x) = x /\ 0 <= D2I x <= 9
  /\ D2I (I2D i) = i /\ C.chr "0" <= I2D i <= C.chr "9".
Proof.
  unfold D2I, I2D. change (C.chr "0") with 48 in *.
  change (C.chr "9") with 57 in *. lia.
Qed.

Lemma digit_index_round_trip_witness :
  D2I (C.chr "7") = 7 /\ I2D 7 = C.chr "7".
Proof.
  split; [reflexivity |].
  unshelve
  refine (eq_trans (eq_sym (f_equal I2D (eq_refl : D2I (C.chr "7") = 7)))
            (proj1 (digit_index_round_trip (C.chr "7") 7 _ _)));
    vm_compute; split; discriminate.
Defined.

(** X23: A2I yields an index from 0 to 25 exactly for the lowercase letters,
    and D2I a number from 0 to 9 exactly for the digit characters; on an
    uppercase letter A2I is negative.  Both are one to one. *)
Theorem index_validity (x y : Z) :
  (0 <= A2I x <= 25 <-> C.chr "a" <= x <= C.chr "z")
  /\ (0 <= D2I x <= 9 <-> C.chr "0" <= x <= C.chr "9")
  /\ (C.chr "A" <= x <= C.chr "Z" -> -32 <= A2I x <= -7)
  /\ (A2I x = A2I y -> x = y) /\ (D2I x = D2I y -> x = y).
Proof.
  unfold A2I, D2I. change (C.chr "a") with 97. change (C.chr "z") with 122.
  change (C.chr "0") with 48. change (C.chr "9") with 57.
  change (C.chr "A") with 65. change (C.chr "Z") with 90. lia.
Qed.

Lemma KTRL_range (c : Z) : 0 <= KTRL c <= 31.
Proof. rewrite KTRL_mod. pose proof (Z.mod_pos_bound c 32). lia. Qed.

Lemma KTRL_shift (c n : Z) : KTRL (c + 32 * n) = KTRL c.
Proof.
  rewrite !KTRL_mod. rewrite Z.mul_comm. apply Z.mod_add. lia.
Qed.

(** X24: KTRL always yields a control code, from 0 to 31, and does nothing to
    one; it gives a letter the same code in lowercase and in uppercase; and
    it undoes UN_KTRL on every control code, which UN_KTRL sends into 64 to
    95. *)
Theorem KTRL_control_codes (c : Z) :
  0 <= KTRL c <= 31
  /\ KTRL (KTRL c) = KTRL c
  /\ (0 <= c <= 31 <-> KTRL c = c)
  /\ KTRL (c + 32) = KTRL c
  /\ KTRL (UN_KTRL c) = KTRL c
  /\ (0 <= c <= 31 -> KTRL (UN_KTRL c) = c /\ 64 <= UN_KTRL c <= 95).
Proof.
  pose proof (KTRL_range c) as R.
  assert (I : forall x, 0 <= x <= 31 -> KTRL x = x).
  { intros x H. rewrite KTRL_mod. apply Z.mod_small. lia. }
  assert (U : KTRL (UN_KTRL c) = KTRL c).
  { unfold UN_KTRL. apply (KTRL_shift c 2). }
  split; [exact R |]. split; [apply I, KTRL_range |].
  split; [split; [apply I | intros E; rewrite <- E; exact R] |].
  split; [apply (KTRL_shift c 1) |]. split; [exact U |].
  intros H. rewrite U, (I c H). unfold UN_KTRL. lia.
Qed.

Lemma KTRL_control_codes_witness :
  KTRL (C.chr "a") = KTRL (C.chr "A") /\ KTRL (UN_KTRL 27) = 27.
Proof.
  split.
  - exact (proj1 (proj2 (proj2 (proj2 (KTRL_control_codes (C.chr "A")))))).
  - unshelve
    refine (proj1 (proj2 (proj2 (proj2 (proj2 (proj2
              (KTRL_control_codes 27))))) _));
      vm_compute; split; discriminate.
Defined.

(** X25: UN_KTRL(KTRL(c)) always lies in 64 to 95, so it is c exactly when c
    does; on a lowercase letter it is the uppercase letter.  ESCAPE is the
    control code of the opening bracket. *)
Theorem UN_KTRL_KTRL_domain (c : Z) :
  64 <= UN_KTRL (KTRL c) <= 95
  /\ (UN_KTRL (KTRL c) = c <-> 64 <= c <= 95)
  /\ (C.chr "a" <= c <= C.chr "z" -> UN_KTRL (KTRL c) = c - 32)
  /\ ESCAPE = KTRL (C.chr "[") /\ UN_KTRL ESCAPE = C.chr "[".
Proof.
  pose proof (KTRL_range c) as R.
  split; [unfold UN_KTRL; lia |]. split; [| split; [| done]].
  - split; [unfold UN_KTRL; lia |].
    intros H. unfold UN_KTRL. rewrite KTRL_mod.
    rewrite <- (Z.mod_unique c 32 2 (c - 64)); lia.
  - change (C.chr "a") with 97. change (C.chr "z") with 122. intros H.
    unfold UN_KTRL. rewrite KTRL_mod.
    rewrite <- (Z.mod_unique c 32 3 (c - 96)); lia.
Qed.

Lemma UN_KTRL_KTRL_domain_witness :
  UN_KTRL (KTRL (C.chr "x")) = C.chr "X".
Proof.
  unshelve
  refine (eq_trans (proj1 (proj2 (proj2
            (UN_KTRL_KTRL_domain (C.chr "x")))) _) _);
    first [reflexivity | vm_compute; split; discriminate].
Defined.

End MacroExtras.
